(** * Wyckoff-1Min-Reader: the watchlist bot and the sheet manager

    A shallow embedding of [add_stock.py] (the Telegram command loop that
    maintains [stock_list.txt]) and of [sheet_manager.py] (the Google
    Sheets row store), with the properties of the specification stated
    over it.

    Python strings are sequences of Unicode code points and are modelled
    as [list N]; Python sets of strings as [gset (list N)]; the dictionary
    returned by [get_all_stocks] as a [gmap]. *)

From Stdlib Require Import ZArith NArith QArith Ascii String DecimalString.
From Stdlib Require Import Floats.SpecFloat.
From stdpp Require Import gmap sets list sorting.

Local Open Scope N_scope.

(** A Python [str]: its code points. *)
Abbreviation pystr := (list N).

(* ===================================================================== *)
(** * Python primitives used by the two programs *)
(* ===================================================================== *)

Module Py.

(** An ASCII literal as a Python string. *)
Definition lit (s : string) : pystr :=
  (fun a => N_of_ascii a) <$> list_ascii_of_string s.

(** ** Character classes

    [\d] in a [str] pattern is the Unicode category Nd.  Each entry of
    [decimal_blocks] is the code point of a digit zero; the nine code
    points after it are the digits one to nine of the same script
    (Unicode 14.0, the database of CPython 3.11). *)
Definition decimal_blocks : list N :=
  [ 0x30; 0x660; 0x6f0; 0x7c0; 0x966; 0x9e6; 0xa66; 0xae6; 0xb66; 0xbe6;
    0xc66; 0xce6; 0xd66; 0xde6; 0xe50; 0xed0; 0xf20; 0x1040; 0x1090;
    0x17e0; 0x1810; 0x1946; 0x19d0; 0x1a80; 0x1a90; 0x1b50; 0x1bb0;
    0x1c40; 0x1c50; 0xa620; 0xa8d0; 0xa900; 0xa9d0; 0xa9f0; 0xaa50;
    0xabf0; 0xff10; 0x104a0; 0x10d30; 0x11066; 0x110f0; 0x11136; 0x111d0;
    0x112f0; 0x11450; 0x114d0; 0x11650; 0x116c0; 0x11730; 0x118e0;
    0x11950; 0x11c50; 0x11d50; 0x11da0; 0x16a60; 0x16ac0; 0x16b50;
    0x1d7ce; 0x1d7d8; 0x1d7e2; 0x1d7ec; 0x1d7f6;
    0x1e140; 0x1e2f0; 0x1e950; 0x1fbf0 ].

Definition in_block (c z : N) : bool := (z <=? c) && (c <? z + 10).

Definition is_digit (c : N) : bool := existsb (in_block c) decimal_blocks.

(** [str.isspace] on one character: what [str.strip()] removes. *)
Definition whitespace : list N :=
  [ 0x9; 0xa; 0xb; 0xc; 0xd; 0x1c; 0x1d; 0x1e; 0x1f; 0x20; 0x85; 0xa0;
    0x1680; 0x2000; 0x2001; 0x2002; 0x2003; 0x2004; 0x2005; 0x2006;
    0x2007; 0x2008; 0x2009; 0x200a; 0x2028; 0x2029; 0x202f; 0x205f;
    0x3000 ].

Definition is_space (c : N) : bool := existsb (N.eqb c) whitespace.

(** ** [str.strip()] *)
Fixpoint lstrip (t : pystr) : pystr :=
  match t with
  | [] => []
  | c :: tl => if is_space c then lstrip tl else t
  end.

Definition strip (t : pystr) : pystr := reverse (lstrip (reverse (lstrip t))).

(** ** String equality and the substring test [p in t] *)
Definition str_eqb (a b : pystr) : bool := bool_decide (a = b).

Fixpoint starts_with (p t : pystr) : bool :=
  match p, t with
  | [], _ => true
  | _ :: _, [] => false
  | x :: p', y :: t' => (x =? y) && starts_with p' t'
  end.

Fixpoint contains (p t : pystr) : bool :=
  starts_with p t ||
  match t with
  | [] => false
  | _ :: tl => contains p tl
  end.

(** ** [re.findall(r"\d{6}", text)]

    The scan tries a match at the current position; after a match it
    resumes behind the six characters it consumed, otherwise it moves one
    character on.  Matches are returned in text order. *)
Fixpoint findall_d6 (t : pystr) : list pystr :=
  match t with
  | [] => []
  | a :: tl =>
      match tl with
      | b :: c :: d :: e :: f :: rest =>
          if forallb is_digit [a; b; c; d; e; f]
          then [a; b; c; d; e; f] :: findall_d6 rest
          else findall_d6 tl
      | _ => findall_d6 tl
      end
  end.

(** ** [re.search] of an alternation of literals under [re.IGNORECASE]

    A literal pattern character matches the characters whose lower case
    is the pattern character or one of its case-folding equivalents.  For
    the characters of the two patterns of [add_stock.py]: an ASCII letter
    matches both its cases, [i] also U+0130 and U+0131, [s] also U+017F;
    a CJK character matches itself only. *)
Definition ignorecase_class (p : N) : list N :=
  if (0x61 <=? p) && (p <=? 0x7a) then
    p :: (p - 0x20) ::
      (if p =? 0x69 then [0x130; 0x131]
       else if p =? 0x73 then [0x17f]
       else if p =? 0x6b then [0x212a]
       else [])
  else [p].

Definition ignorecase_eqb (p c : N) : bool :=
  existsb (N.eqb c) (ignorecase_class p).

Fixpoint ignorecase_starts_with (p t : pystr) : bool :=
  match p, t with
  | [], _ => true
  | _ :: _, [] => false
  | x :: p', y :: t' => ignorecase_eqb x y && ignorecase_starts_with p' t'
  end.

Fixpoint ignorecase_contains (p t : pystr) : bool :=
  ignorecase_starts_with p t ||
  match t with
  | [] => false
  | _ :: tl => ignorecase_contains p tl
  end.

(** [re.search(r"(p1|...|pn)", text, re.IGNORECASE)] as a truth value. *)
Definition search_any (alternatives : list pystr) (t : pystr) : bool :=
  existsb (fun p => ignorecase_contains p t) alternatives.

(** ** [str(n)] for an [int] *)
Definition str_int (z : Z) : pystr :=
  lit (NilEmpty.string_of_int (Z.to_int z)).

(** ** [sorted] on strings: ascending, code point by code point *)
Fixpoint str_leb (a b : pystr) : bool :=
  match a, b with
  | [], _ => true
  | _ :: _, [] => false
  | x :: a', y :: b' => (x <? y) || ((x =? y) && str_leb a' b')
  end.

Definition str_le (a b : pystr) : Prop := str_leb a b = true.

#[global] Instance str_le_dec : RelDecision str_le.
Proof. intros a b. unfold str_le. apply _. Defined.

Definition sorted (l : list pystr) : list pystr := merge_sort str_le l.

End Py.

(* ===================================================================== *)
(** * add_stock.py *)
(* ===================================================================== *)

Module AddStock.

(** One entry of the [getUpdates] result.  Every key that the loop reads
    with [.get] may be absent; [update_id] is always present.  [chat_ident]
    is the integer [message.chat.id]. *)
Record Chat := { chat_ident : option Z }.
Record Message := { chat : option Chat; text : option pystr; date : option Z }.
Record Update := { update_id : Z; message : option Message }.

(** [str(message.get("chat", {}).get("id", ""))] *)
Definition chat_id_of (m : option Message) : pystr :=
  match m with
  | Some {| chat := Some {| chat_ident := Some i |} |} => Py.str_int i
  | _ => []
  end.

(** [message.get("text", "")] *)
Definition text_of (m : option Message) : pystr :=
  match m with
  | Some {| text := Some t |} => t
  | _ => []
  end.

(** [message.get("date", 0)] *)
Definition date_of (m : option Message) : Z :=
  match m with
  | Some {| date := Some d |} => d
  | _ => 0%Z
  end.

(** Truth value of an [os.getenv] result: unset and empty are both false. *)
Definition env_set (v : option pystr) : bool :=
  match v with
  | Some (_ :: _) => true
  | _ => false
  end.

Definition env_str (v : option pystr) : pystr := default [] v.

(** The two keyword patterns:
    [(查看|查询|列表|list|ls|cx)] and [(清空|clear)]. *)
Definition view_keywords : list pystr :=
  [ [0x67e5; 0x770b]; [0x67e5; 0x8be2]; [0x5217; 0x8868];
    Py.lit "list"; Py.lit "ls"; Py.lit "cx" ].

Definition clear_keywords : list pystr :=
  [ [0x6e05; 0x7a7a]; Py.lit "clear" ].

(** The variables the message loop updates. *)
Record LoopState := {
  new_stocks : gset pystr;
  latest_update_id : Z;
  should_clear : bool;
  should_view : bool
}.

Definition loop_init : LoopState :=
  {| new_stocks := ∅; latest_update_id := 0; should_clear := false; should_view := false |}.

(** [chat_id != str(admin_chat_id)] guarded by [admin_chat_id]: the
    security check. *)
Definition unauthorized (admin_chat_id : option pystr) (u : Update) : bool :=
  env_set admin_chat_id &&
  negb (Py.str_eqb (chat_id_of (message u)) (env_str admin_chat_id)).

(** [current_time - date > 2400].  [time.time()] is a float; it is taken
    here as the rational it denotes and the subtraction as exact. *)
Definition stale (current_time : Q) (u : Update) : bool :=
  negb (Qle_bool (current_time - inject_Z (date_of (message u))) 2400).

(** One iteration of [for update in updates]. *)
Definition loop_body (admin_chat_id : option pystr) (current_time : Q)
    (st : LoopState) (update : Update) : LoopState :=
  let latest := Z.max (latest_update_id st) (update_id update) in
  let skipped :=
    {| new_stocks := new_stocks st; latest_update_id := latest;
       should_clear := should_clear st; should_view := should_view st |} in
  if unauthorized admin_chat_id update then skipped
  else if stale current_time update then skipped
  else
    let text := text_of (message update) in
    let view := if Py.search_any view_keywords text then true else should_view st in
    let clear := if Py.search_any clear_keywords text then true else should_clear st in
    let codes := Py.findall_d6 text in
    {| new_stocks := fold_left (fun acc code => acc ∪ {[ code ]}) codes (new_stocks st);
       latest_update_id := latest;
       should_clear := clear;
       should_view := view |}.

(** Step 3 of [main]: the whole loop. *)
Definition parse_messages (admin_chat_id : option pystr) (current_time : Q)
    (updates : list Update) : LoopState :=
  fold_left (loop_body admin_chat_id current_time) updates loop_init.

(** ** [stock_list.txt] *)

(** Text mode with universal newlines: ["\r\n"] and ["\r"] read as ["\n"]. *)
Fixpoint translate_newlines (t : pystr) : pystr :=
  match t with
  | [] => []
  | c :: tl =>
      if c =? 0xd then
        0xa :: match tl with
               | c' :: tl' => if c' =? 0xa then translate_newlines tl'
                              else translate_newlines tl
               | [] => []
               end
      else c :: translate_newlines tl
  end.

(** Iterating over the file: the lines, each with its ["\n"] (the last one
    may lack it).  [cur] holds the current line, reversed. *)
Fixpoint lines_from (cur : pystr) (t : pystr) : list pystr :=
  match t with
  | [] => match cur with [] => [] | _ => [reverse cur] end
  | c :: tl =>
      if c =? 0xa then reverse (c :: cur) :: lines_from [] tl
      else lines_from (c :: cur) tl
  end.

Definition file_lines (content : pystr) : list pystr :=
  lines_from [] (translate_newlines content).

Definition nonempty (t : pystr) : bool :=
  match t with [] => false | _ => true end.

(** Step 2: [{line.strip() for line in f if line.strip()}], or the empty
    set when the file does not exist. *)
Definition read_stock_list (file : option pystr) : gset pystr :=
  match file with
  | None => ∅
  | Some content =>
      list_to_set (filter (fun l => nonempty l = true) (Py.strip <$> file_lines content))
  end.

(** The text written by
    [for stock in sorted(final_list): f.write(f"{stock}\n")]. *)
Definition sorted_set (s : gset pystr) : list pystr := Py.sorted (elements s).

Definition write_stock_list (final_list : gset pystr) : pystr :=
  concat ((fun stock => stock ++ [0xa]) <$> sorted_set final_list).

(** ** Steps 4 to 6 *)

(** What [send_reply] is asked to send: the change notice (which banner,
    and the sorted codes of this run) or the listing. *)
Inductive Reply :=
  | Changed (cleared : bool) (delta : list pystr)
  | Listing (codes : list pystr).

Record Outcome := {
  list_changed : bool;
  existing_stocks : gset pystr;      (* the in-memory list after step 4 *)
  written : option pystr;            (* the new file content, if opened for writing *)
  change_reply : option Reply
}.

(** Step 4: apply the changes ([if new_stocks or should_clear: ...]). *)
Definition reconcile (existing : gset pystr) (st : LoopState) : Outcome :=
  if bool_decide (new_stocks st ≠ ∅) || should_clear st then
    let final_list :=
      if should_clear st then new_stocks st
      else existing ∪ new_stocks st in
    {| list_changed := true;
       existing_stocks := final_list;
       written := Some (write_stock_list final_list);
       change_reply := Some (Changed (should_clear st) (sorted_set (new_stocks st))) |}
  else
    {| list_changed := false;
       existing_stocks := existing;
       written := None;
       change_reply := None |}.

(** The file after step 4: rewritten as a whole, or left as it was. *)
Definition file_after (before : option pystr) (out : Outcome) : option pystr :=
  match written out with
  | Some content => Some content
  | None => before
  end.

(** Steps 2 and 4 on the file, for the state the loop ended in. *)
Definition cycle (file : option pystr) (st : LoopState) : option pystr :=
  file_after file (reconcile (read_stock_list file) st).

(** Everything [main] reads, and everything it does. *)
Record World := {
  TG_BOT_TOKEN : option pystr;
  TG_CHAT_ID : option pystr;
  clock : Q;                          (* time.time() *)
  pending : list Update;              (* get_telegram_updates(bot_token) *)
  stock_list_txt : option pystr       (* the file, if it exists *)
}.

Record Run := {
  stock_list_after : option pystr;
  replies : list Reply;
  offset : option Z                   (* the acknowledging getUpdates call *)
}.

Definition idle (w : World) : Run :=
  {| stock_list_after := stock_list_txt w; replies := []; offset := None |}.

Definition main (w : World) : Run :=
  if negb (env_set (TG_BOT_TOKEN w)) then idle w
  else
    match pending w with
    | [] => idle w
    | updates =>
        let existing := read_stock_list (stock_list_txt w) in
        let st := parse_messages (TG_CHAT_ID w) (clock w) updates in
        let out := reconcile existing st in
        let view_reply :=
          if should_view st then [Listing (sorted_set (existing_stocks out))] else [] in
        {| stock_list_after := file_after (stock_list_txt w) out;
           replies := option_list (change_reply out) ++ view_reply;
           offset := if (0 <? latest_update_id st)%Z
                     then Some (latest_update_id st + 1)%Z else None |}
    end.

End AddStock.

(* ===================================================================== *)
(** * sheet_manager.py *)
(* ===================================================================== *)

Module SheetManager.

(** The Python values that reach the methods or sit in the worksheet. *)
Inductive pyval :=
  | PNone
  | PBool (b : bool)
  | PInt (z : Z)
  | PFloat (f : spec_float)
  | PStr (s : pystr).

(** Truth value of an object. *)
Definition truthy (v : pyval) : bool :=
  match v with
  | PNone => false
  | PBool b => b
  | PInt z => negb (z =? 0)%Z
  | PFloat (S754_zero _) => false
  | PFloat _ => true
  | PStr [] => false
  | PStr (_ :: _) => true
  end.

(** [a or b] *)
Definition por (a b : pyval) : pyval := if truthy a then a else b.

(** [s or d] on strings. *)
Definition str_or (s d : pystr) : pystr :=
  match s with [] => d | _ => s end.

(** The float [0.0]. *)
Definition float_zero : spec_float := S754_zero false.

(** A row of [get_all_records()]: a dict from header to value, in header
    order. *)
Abbreviation record := (list (pystr * pyval)).

(** The worksheet as [values_get] returns it: rows of cells, row 1 first. *)
Abbreviation grid := (list (list pyval)).

(** One entry of the result of [get_all_stocks]. *)
Record Stock := { date : pystr; qty : pystr; price : pystr }.

Section Methods.

(** [str(x)] of a float, and [datetime.now().strftime("%Y-%m-%d")]. *)
Variable float_str : spec_float -> pystr.
Variable today : pystr.

(** [str(v)] *)
Definition str (v : pyval) : pystr :=
  match v with
  | PNone => Py.lit "None"
  | PBool true => Py.lit "True"
  | PBool false => Py.lit "False"
  | PInt z => Py.str_int z
  | PFloat f => float_str f
  | PStr s => s
  end.

(** ** Dictionary access *)

(** [row[k]] and [row.get(k, d)] *)
Fixpoint item (k : pystr) (row : record) : option pyval :=
  match row with
  | [] => None
  | (k', v) :: tl => if Py.str_eqb k' k then Some v else item k tl
  end.

Definition get (k : pystr) (d : pyval) (row : record) : pyval :=
  default d (item k row).

(** [next((k for k in row.keys() if 'Code' in str(k)), None)] *)
Definition code_key (row : record) : option pystr :=
  head (filter (fun k => Py.contains (Py.lit "Code") k = true) (row.*1)).

(** ** get_all_stocks *)

(** The body of the loop for one row: the key and the entry assigned to
    [stocks[code]], or nothing when the row is passed over. *)
Definition row_entry (row : record) : option (pystr * Stock) :=
  match code_key row with
  | None => None
  | Some [] => None
  | Some k =>
      let code := Py.strip (str (get k PNone row)) in
      match code with
      | [] => None
      | _ =>
          Some (code,
                {| date := str_or (Py.strip (str (get (Py.lit "BuyDate") (PStr []) row))) today;
                   qty := str_or (Py.strip (str (get (Py.lit "Qty") (PStr []) row))) (Py.lit "0");
                   price := str_or (Py.strip (str (get (Py.lit "Price") (PStr []) row))) (Py.lit "0.0") |})
      end
  end.

Definition assign (stocks : gmap pystr Stock) (row : record) : gmap pystr Stock :=
  match row_entry row with
  | Some (code, entry) => <[code := entry]> stocks
  | None => stocks
  end.

(** [records] is [None] when [get_all_records()] raised. *)
Definition get_all_stocks (records : option (list record)) : gmap pystr Stock :=
  match records with
  | None => ∅
  | Some rows => fold_left assign rows ∅
  end.

(** ** The worksheet operations *)

(** [sheet.find(query)]: the first cell, row by row, whose text equals the
    query; rows and columns count from 1.  [None] stands for
    [CellNotFound].  The text of a cell is taken to be [str] of the value
    written to it. *)
Fixpoint find_in_row (query : pystr) (col : nat) (cells : list pyval) : option nat :=
  match cells with
  | [] => None
  | v :: tl => if Py.str_eqb (str v) query then Some col
               else find_in_row query (S col) tl
  end.

Fixpoint find_from (query : pystr) (row : nat) (rows : grid) : option (nat * nat) :=
  match rows with
  | [] => None
  | cells :: tl =>
      match find_in_row query 1%nat cells with
      | Some col => Some (row, col)
      | None => find_from query (S row) tl
      end
  end.

Definition find (sheet : grid) (query : pystr) : option (nat * nat) :=
  find_from query 1%nat sheet.

(** [sheet.update_cell(row, col, value)]; cells and rows that the grid
    does not list are blank. *)
Definition set_cell (i : nat) (v : pyval) (cells : list pyval) : list pyval :=
  <[i := v]> (cells ++ replicate (S i - length cells)%nat (PStr [])).

Definition update_cell (sheet : grid) (row col : nat) (v : pyval) : grid :=
  alter (set_cell (col - 1)%nat v) (row - 1)%nat
        (sheet ++ replicate (row - length sheet)%nat []).

(** [sheet.append_row(values)] *)
Definition append_row (sheet : grid) (values : list pyval) : grid :=
  sheet ++ [values].

(** [sheet.delete_rows(row)] *)
Definition delete_rows (sheet : grid) (row : nat) : grid :=
  delete (row - 1)%nat sheet.

(** ** add_or_update_stock, remove_stock, clear_all *)

Definition add_or_update_stock (sheet : grid) (code date qty price : pyval)
    : pystr * grid :=
  let code := str code in
  let date := por date (PStr today) in
  let qty := por qty (PInt 0) in
  let price := por price (PFloat float_zero) in
  match find sheet code with
  | Some (row, _) =>
      let sheet := update_cell sheet row 2%nat date in
      let sheet := update_cell sheet row 3%nat qty in
      let sheet := update_cell sheet row 4%nat price in
      (Py.lit "Updated", sheet)
  | None =>
      (Py.lit "Added", append_row sheet [PStr code; date; qty; price])
  end.

Definition remove_stock (sheet : grid) (code : pyval) : bool * grid :=
  match find sheet (str code) with
  | Some (row, _) => (true, delete_rows sheet row)
  | None => (false, sheet)
  end.

(** [resize(rows=1)] then [resize(rows=100)]: only the header row keeps
    its content. *)
Definition clear_all (sheet : grid) : grid := take 1%nat sheet.

End Methods.

End SheetManager.

(* ===================================================================== *)
(** * Notions used in the statements *)
(* ===================================================================== *)

Import AddStock.

(** A StockCode: six decimal digits. *)
Definition is_code (c : pystr) : Prop :=
  length c = 6%nat ∧ forallb Py.is_digit c = true.

(** A line that survives writing and reading back: not empty, nothing for
    [strip] to remove, no line break inside. *)
Definition clean (c : pystr) : Prop :=
  c ≠ [] ∧ Py.strip c = c ∧ (0xa ∉ c) ∧ (0xd ∉ c).

(** Strictly ascending: what a sorted listing of a set looks like. *)
Definition str_lt (a b : pystr) : Prop := Py.str_le a b ∧ a ≠ b.

(** The loop state with one more sequence number taken into the maximum. *)
Definition seen (k : Z) (st : LoopState) : LoopState :=
  {| new_stocks := new_stocks st;
     latest_update_id := Z.max (latest_update_id st) k;
     should_clear := should_clear st;
     should_view := should_view st |}.

(** A message the loop does not skip: authorized and fresh. *)
Definition accepted (admin : option pystr) (now : Q) (u : Update) : Prop :=
  unauthorized admin u = false ∧ stale now u = false.

#[global] Instance accepted_dec admin now u : Decision (accepted admin now u).
Proof. unfold accepted. apply _. Defined.

(** The maximal runs of digits of a text, in text order; [cur] is the run
    being read, reversed. *)
Fixpoint digit_runs_from (cur : pystr) (t : pystr) : list pystr :=
  match t with
  | [] => match cur with [] => [] | _ => [reverse cur] end
  | c :: tl =>
      if Py.is_digit c then digit_runs_from (c :: cur) tl
      else match cur with
           | [] => digit_runs_from [] tl
           | _ => reverse cur :: digit_runs_from [] tl
           end
  end.

Definition digit_runs (t : pystr) : list pystr := digit_runs_from [] t.

(** The successive blocks of six characters of a run; what is left over
    at the end is dropped. *)
Fixpoint blocks6 (r : pystr) : list pystr :=
  match r with
  | a :: b :: c :: d :: e :: f :: rest => [a; b; c; d; e; f] :: blocks6 rest
  | _ => []
  end.

(** Where a run of digits ends: at the end of the text or before a
    character that is no digit. *)
Definition run_end (rest : pystr) : Prop :=
  match rest with
  | [] => True
  | x :: _ => Py.is_digit x = false
  end.

(** The codes of a batch as the specification words them: the maximal
    digit runs of exactly six digits of the accepted messages. *)
Definition runs_of_exactly_six (admin : option pystr) (now : Q)
    (batch : list Update) : gset pystr :=
  list_to_set
    (concat ((fun u => filter (fun r => length r = 6%nat)
                              (digit_runs (text_of (message u))))
             <$> filter (accepted admin now) batch)).

(** A text message of a given chat. *)
Definition text_message (i chat_id d : Z) (t : pystr) : Update :=
  {| update_id := i;
     message := Some {| chat := Some {| chat_ident := Some chat_id |};
                        text := Some t; date := Some d |} |}.

(** The state the loop ends in after an order to add, or to clear and
    add, the given codes. *)
Definition intent (codes : gset pystr) (clear : bool) : LoopState :=
  {| new_stocks := codes; latest_update_id := 1;
     should_clear := clear; should_view := false |}.

(** The cell at a row and a column of the worksheet, both counted from 1. *)
Definition cell (sheet : SheetManager.grid) (row col : nat)
    : option SheetManager.pyval :=
  sheet !! (row - 1)%nat ≫= fun cells => cells !! (col - 1)%nat.

(** The entries that the rows of a sheet assign, in sheet order. *)
Definition assignments (float_str : spec_float → pystr) (today : pystr)
    (rows : list SheetManager.record) : list (pystr * SheetManager.Stock) :=
  omap (SheetManager.row_entry float_str today) rows.

(** A worksheet with a header and one holding, whose quantity reads like a
    stock code. *)
Definition header : list SheetManager.pyval :=
  [ SheetManager.PStr (Py.lit "Code"); SheetManager.PStr (Py.lit "BuyDate");
    SheetManager.PStr (Py.lit "Qty"); SheetManager.PStr (Py.lit "Price") ].

Definition one_holding : SheetManager.grid :=
  [ header;
    [ SheetManager.PStr (Py.lit "000001"); SheetManager.PStr (Py.lit "2024-01-02");
      SheetManager.PStr (Py.lit "600970"); SheetManager.PStr (Py.lit "10.5") ] ].

(** The largest sequence number of a batch, or 0. *)
Definition max_update_id (batch : list Update) : Z :=
  foldr (fun u m => Z.max (update_id u) m) 0%Z batch.

(** The same batch once more at a later reading of the clock, with the
    file as the run left it: what the next run sees when the
    acknowledgment was lost. *)
Definition rerun (later : Q) (w : World) : World :=
  {| TG_BOT_TOKEN := TG_BOT_TOKEN w; TG_CHAT_ID := TG_CHAT_ID w;
     clock := later; pending := pending w;
     stock_list_txt := stock_list_after (main w) |}.

(** A world with the token set, the chat 42 authorized, and one fresh
    message of this chat. *)
Definition world_of (file : option pystr) (t : pystr) : World :=
  {| TG_BOT_TOKEN := Some (Py.lit "token"); TG_CHAT_ID := Some (Py.lit "42");
     clock := 1000; pending := [text_message 5 42 900 t];
     stock_list_txt := file |}.

(** An ASCII capital as its small letter; any other character as it is. *)
Definition ascii_lower (c : N) : N :=
  if (0x41 <=? c) && (c <=? 0x5a) then c + 0x20 else c.

(** No ASCII capital: the characters the keyword patterns are written in. *)
Definition no_capital (p : N) : Prop := ¬ (0x41 ≤ p ∧ p ≤ 0x5a).

(** The first cell of the row reads [q]. *)
Definition has_key (float_str : spec_float → pystr) (q : pystr)
    (cells : list SheetManager.pyval) : bool :=
  match cells with
  | v :: _ => Py.str_eqb (SheetManager.str float_str v) q
  | [] => false
  end.

(** The index, from 0, of the first row whose first cell reads [q]. *)
Fixpoint key_row_from (float_str : spec_float → pystr) (q : pystr)
    (i : nat) (rows : SheetManager.grid) : option nat :=
  match rows with
  | [] => None
  | cells :: tl =>
      if has_key float_str q cells then Some i
      else key_row_from float_str q (S i) tl
  end.

Definition key_row (float_str : spec_float → pystr) (q : pystr)
    (sheet : SheetManager.grid) : option nat :=
  key_row_from float_str q 0 sheet.

(** No cell to the right of the first column reads [q]. *)
Definition key_only (float_str : spec_float → pystr) (q : pystr)
    (sheet : SheetManager.grid) : Prop :=
  Forall (fun cells =>
            Forall (fun v => SheetManager.str float_str v ≠ q) (tail cells))
         sheet.

(** A row after its columns 2 to 4 were overwritten. *)
Definition overwritten (d q p : SheetManager.pyval)
    (cells : list SheetManager.pyval) : list SheetManager.pyval :=
  take 1 cells ++ [d; q; p] ++ drop 4 cells.

(** [str] on the floats that print without digits; the examples below use
    no other float than zero. *)
Definition float_text (f : spec_float) : pystr :=
  match f with
  | S754_zero false => Py.lit "0.0"
  | S754_zero true => Py.lit "-0.0"
  | S754_infinity false => Py.lit "inf"
  | S754_infinity true => Py.lit "-inf"
  | S754_nan => Py.lit "nan"
  | S754_finite _ _ _ => []
  end.

(** Two rows of [get_all_records()] for the same code. *)
Definition two_records : list SheetManager.record :=
  [ [ (Py.lit "Code", SheetManager.PInt 600970);
      (Py.lit "BuyDate", SheetManager.PStr (Py.lit "2024-01-02"));
      (Py.lit "Qty", SheetManager.PInt 100);
      (Py.lit "Price", SheetManager.PStr []) ];
    [ (Py.lit "Code", SheetManager.PStr (Py.lit " 600970 "));
      (Py.lit "BuyDate", SheetManager.PStr []);
      (Py.lit "Qty", SheetManager.PInt 200);
      (Py.lit "Price", SheetManager.PStr (Py.lit "9.5")) ] ].

(** Every line of a file, as the program reads it, is a StockCode. *)
Definition every_line_is_a_code (content : pystr) : Prop :=
  Forall (fun line => is_code (Py.strip line)) (file_lines content).

(** [k] is the first key of the row that contains "Code". *)
Definition code_column (k : pystr) (row : SheetManager.record) : Prop :=
  ∃ before v after,
    row = before ++ (k, v) :: after ∧
    Forall (fun kv => Py.contains (Py.lit "Code") kv.1 = false) before ∧
    Py.contains (Py.lit "Code") k = true.

(** The code a row carries in the column [k]: the text of the cell,
    stripped. *)
Definition carried_code (float_str : spec_float → pystr) (k : pystr)
    (row : SheetManager.record) : pystr :=
  Py.strip (SheetManager.str float_str
              (SheetManager.get k SheetManager.PNone row)).

(** The text of a field of a row, stripped; a missing or blank field gives
    the default. *)
Definition field_text (float_str : spec_float → pystr) (name fallback : pystr)
    (row : SheetManager.record) : pystr :=
  match Py.strip (SheetManager.str float_str
                    (SheetManager.get name (SheetManager.PStr []) row)) with
  | [] => fallback
  | t => t
  end.

(** The entry a row stands for: its BuyDate, Qty and Price, with today's
    date, "0" and "0.0" for what is blank. *)
Definition fields_of_row (float_str : spec_float → pystr) (today : pystr)
    (row : SheetManager.record) : SheetManager.Stock :=
  {| SheetManager.date := field_text float_str (Py.lit "BuyDate") today row;
     SheetManager.qty := field_text float_str (Py.lit "Qty") (Py.lit "0") row;
     SheetManager.price := field_text float_str (Py.lit "Price") (Py.lit "0.0") row |}.

(* ===================================================================== *)
(** * Properties of add_stock.py *)
(* ===================================================================== *)

Section Text.

Lemma digit_not_space c : Py.is_digit c = true → Py.is_space c = false.
Proof.
  intros Hd. destruct (Py.is_space c) eqn:Hs; [|done].
  unfold Py.is_space in Hs. apply existsb_exists in Hs as (x & Hin & Hx).
  apply N.eqb_eq in Hx. subst x.
  unfold Py.whitespace in Hin. simpl in Hin.
  repeat (destruct Hin as [<-|Hin]; [vm_compute in Hd; discriminate|]).
  destruct Hin.
Qed.

Lemma lstrip_id c t : Py.is_space c = false → Py.lstrip (c :: t) = c :: t.
Proof. intros H. simpl. by rewrite H. Qed.

Lemma strip_id (t : pystr) :
  (∀ c, head t = Some c → Py.is_space c = false) →
  (∀ c, last t = Some c → Py.is_space c = false) →
  Py.strip t = t.
Proof.
  intros Hh Hl. unfold Py.strip.
  destruct t as [|a t]; [done|].
  rewrite lstrip_id by (apply Hh; done).
  destruct (reverse (a :: t)) as [|b r] eqn:Hr.
  { apply (f_equal reverse) in Hr. rewrite reverse_involutive in Hr. done. }
  rewrite lstrip_id.
  - by rewrite <- Hr, reverse_involutive.
  - apply Hl. apply (f_equal reverse) in Hr. rewrite reverse_involutive in Hr.
    rewrite Hr. rewrite reverse_cons, last_snoc. done.
Qed.

Lemma strip_line (c : pystr) : clean c → Py.strip (c ++ [0xa]) = c.
Proof.
  intros (Hne & Hs & _ & _). unfold Py.strip in *.
  destruct c as [|a t]; [done|].
  simpl in Hs |- *. destruct (Py.is_space a) eqn:Ha.
  - (* a leading blank cannot survive strip *)
    exfalso. 
    assert (Hlen : ∀ u : pystr, (length (Py.lstrip u) ≤ length u)%nat).
    { induction u as [|x u IH]; simpl; [lia|]. destruct (Py.is_space x); simpl; lia. }
    apply (f_equal length) in Hs. rewrite length_reverse in Hs. simpl in Hs.
    pose proof (Hlen (reverse (Py.lstrip t))) as H1. rewrite length_reverse in H1.
    pose proof (Hlen t). lia.
  - change (a :: t ++ [10]) with ((a :: t) ++ [10]).
    rewrite reverse_app. simpl.
    change (Py.is_space 10) with true. simpl.
    exact Hs.
Qed.

End Text.

Section Files.

Lemma code_clean c : is_code c → clean c.
Proof.
  intros [Hlen Hd]. rewrite forallb_forall in Hd.
  assert (Hsp : ∀ x, x ∈ c → Py.is_space x = false).
  { intros x Hx. apply digit_not_space, Hd. by apply list_elem_of_In. }
  split_and!.
  - by destruct c.
  - apply strip_id; intros x Hx; apply Hsp.
    + destruct c; simplify_eq/=. left.
    + by apply last_Some_elem_of.
  - intros Hin. by apply Hsp in Hin.
  - intros Hin. by apply Hsp in Hin.
Qed.

Lemma translate_newlines_id (t : pystr) : 0xd ∉ t → translate_newlines t = t.
Proof.
  induction t as [|c t IH]; [done|]. intros Hn. simpl.
  destruct (N.eqb_spec c 0xd) as [->|Hc].
  - exfalso. apply Hn. left.
  - f_equal. apply IH. intros Hin. apply Hn. by right.
Qed.

Lemma lines_from_line (c cur rest : pystr) :
  0xa ∉ c →
  lines_from cur (c ++ 0xa :: rest) = (reverse cur ++ c ++ [0xa]) :: lines_from [] rest.
Proof.
  revert cur. induction c as [|x c IH]; intros cur Hn.
  - simpl. by rewrite reverse_cons.
  - simpl. destruct (N.eqb_spec x 0xa) as [->|Hx].
    + exfalso. apply Hn. left.
    + rewrite IH by (intros Hin; apply Hn; by right).
      rewrite reverse_cons. by rewrite <- app_assoc.
Qed.

Lemma lines_of_written (l : list pystr) :
  (∀ c, c ∈ l → 0xa ∉ c) →
  lines_from [] (concat ((fun stock => stock ++ [0xa]) <$> l))
  = (fun stock => stock ++ [0xa]) <$> l.
Proof.
  induction l as [|c l IH]; intros Hn; [done|].
  rewrite !fmap_cons. cbn [concat]. rewrite <- app_assoc. cbn [app].
  rewrite lines_from_line by (apply Hn; left).
  rewrite IH by (intros; apply Hn; by right). done.
Qed.

End Files.

Section Sorting.

Lemma str_leb_refl a : Py.str_leb a a = true.
Proof.
  induction a as [|x a IH]; [done|]. simpl.
  rewrite N.eqb_refl, IH. by rewrite orb_true_r.
Qed.

Lemma str_leb_total a b : Py.str_leb a b = true ∨ Py.str_leb b a = true.
Proof.
  revert b. induction a as [|x a IH]; intros [|y b]; simpl; auto.
  destruct (N.lt_trichotomy x y) as [H|[->|H]].
  - left. apply N.ltb_lt in H. by rewrite H.
  - rewrite N.eqb_refl, N.ltb_irrefl. simpl. apply IH.
  - right. apply N.ltb_lt in H. by rewrite H.
Qed.

Lemma str_leb_trans a b c :
  Py.str_leb a b = true → Py.str_leb b c = true → Py.str_leb a c = true.
Proof.
  revert b c. induction a as [|x a IH]; intros [|y b] [|z c]; simpl; try done.
  rewrite !orb_true_iff, !andb_true_iff, !N.ltb_lt, !N.eqb_eq.
  intros [H1|[-> H1]] [H2|[-> H2]].
  - left. lia.
  - by left.
  - by left.
  - right. split; [done|]. by eapply IH.
Qed.

Lemma str_leb_antisym a b :
  Py.str_leb a b = true → Py.str_leb b a = true → a = b.
Proof.
  revert b. induction a as [|x a IH]; intros [|y b]; simpl; try done.
  rewrite !orb_true_iff, !andb_true_iff, !N.ltb_lt, !N.eqb_eq.
  intros [H1|[-> H1]] [H2|[H2 H3]]; try lia.
  f_equal. by apply IH.
Qed.

#[local] Instance str_le_total : Total Py.str_le.
Proof. intros a b. apply str_leb_total. Qed.

#[local] Instance str_le_trans : Transitive Py.str_le.
Proof. intros a b c. apply str_leb_trans. Qed.

#[local] Instance str_le_antisym : AntiSymm (=) Py.str_le.
Proof. intros a b. apply str_leb_antisym. Qed.

Lemma sorted_set_perm (s : gset pystr) : sorted_set s ≡ₚ elements s.
Proof. apply merge_sort_Permutation. Qed.

Lemma elem_of_sorted_set (s : gset pystr) c : c ∈ sorted_set s ↔ c ∈ s.
Proof. rewrite sorted_set_perm. apply elem_of_elements. Qed.

Lemma NoDup_sorted_set (s : gset pystr) : NoDup (sorted_set s).
Proof. rewrite sorted_set_perm. apply NoDup_elements. Qed.

Lemma sorted_set_ascending (s : gset pystr) : StronglySorted str_lt (sorted_set s).
Proof.
  pose proof (NoDup_sorted_set s) as Hnd.
  pose proof (StronglySorted_merge_sort Py.str_le (elements s)) as Hs.
  fold (Py.sorted (elements s)) in Hs. fold (sorted_set s) in Hs.
  induction Hs as [|x l Hx IH Hall]; [constructor|].
  apply NoDup_cons in Hnd as [Hnx Hnd].
  constructor; [by apply IH|].
  rewrite Forall_forall in Hall |- *. intros y Hy. split; [by apply Hall|].
  intros ->. done.
Qed.

Lemma list_to_set_sorted_set (s : gset pystr) : list_to_set (sorted_set s) = s.
Proof. apply set_eq. intros c. rewrite elem_of_list_to_set. apply elem_of_sorted_set. Qed.

Lemma sorted_set_empty : sorted_set ∅ = [].
Proof. unfold sorted_set. by rewrite elements_empty. Qed.

End Sorting.

Section RoundTrip.

Lemma fmap_fixed {A} (f : A → A) (l : list A) :
  (∀ x, x ∈ l → f x = x) → f <$> l = l.
Proof.
  induction l as [|x l IH]; intros H; [done|].
  rewrite fmap_cons, H by left. f_equal. apply IH. intros; apply H; by right.
Qed.

Lemma filter_all {A} (P : A → Prop) `{!∀ x, Decision (P x)} (l : list A) :
  (∀ x, x ∈ l → P x) → filter P l = l.
Proof.
  induction l as [|x l IH]; intros Hall; [done|].
  rewrite filter_cons_True by (apply Hall; left).
  f_equal. apply IH. intros y Hy; apply Hall; by right.
Qed.

Lemma written_no_cr (l : list pystr) :
  (∀ c, c ∈ l → 0xd ∉ c) →
  0xd ∉ concat ((fun stock => stock ++ [0xa]) <$> l).
Proof.
  induction l as [|c l IH]; intros Hl; [by apply not_elem_of_nil|].
  rewrite fmap_cons. cbn [concat]. rewrite !elem_of_app.
  intros [[Hin|Hin]|Hin].
  - by apply (Hl c); [left|].
  - by apply list_elem_of_singleton in Hin.
  - apply IH; [|done]. intros c' Hc'; apply Hl; by right.
Qed.

Lemma read_write (s : gset pystr) :
  (∀ c, c ∈ s → clean c) →
  read_stock_list (Some (write_stock_list s)) = s.
Proof.
  intros Hc. unfold read_stock_list, write_stock_list, file_lines.
  assert (Hl : ∀ c, c ∈ sorted_set s → clean c).
  { intros c Hin. apply Hc. by apply elem_of_sorted_set. }
  rewrite translate_newlines_id
    by (apply written_no_cr; intros c Hin; by apply Hl in Hin as (_ & _ & _ & Hd)).
  rewrite lines_of_written by (intros c Hin; by apply Hl in Hin as (_ & _ & Ha & _)).
  rewrite <- list_fmap_compose.
  rewrite fmap_fixed by (intros c Hin; simpl; by apply strip_line, Hl).
  rewrite filter_all.
  - apply list_to_set_sorted_set.
  - intros c Hin. apply Hl in Hin as (Hne & _). by destruct c.
Qed.

End RoundTrip.

Section Reading.

Lemma lstrip_suffix (t : pystr) : ∃ ws, t = ws ++ Py.lstrip t.
Proof.
  induction t as [|c t [ws IH]]; [by exists []|]. simpl.
  destruct (Py.is_space c).
  - exists (c :: ws). simpl. by f_equal.
  - by exists [].
Qed.

Lemma lstrip_head (t : pystr) c :
  head (Py.lstrip t) = Some c → Py.is_space c = false.
Proof.
  induction t as [|x t IH]; [done|]. simpl.
  destruct (Py.is_space x) eqn:Hx; [done|]. simpl. by intros [= <-].
Qed.

Lemma strip_infix (t : pystr) : ∃ l r, t = l ++ Py.strip t ++ r.
Proof.
  unfold Py.strip.
  destruct (lstrip_suffix t) as [l Hl].
  destruct (lstrip_suffix (reverse (Py.lstrip t))) as [r Hr].
  exists l, (reverse r).
  rewrite <- reverse_app, <- Hr, reverse_involutive. done.
Qed.

Lemma strip_last (t : pystr) c :
  last (Py.strip t) = Some c → Py.is_space c = false.
Proof. unfold Py.strip. rewrite last_reverse. apply lstrip_head. Qed.

Lemma strip_head (t : pystr) c :
  head (Py.strip t) = Some c → Py.is_space c = false.
Proof.
  intros Hc. apply (lstrip_head t).
  destruct (lstrip_suffix (reverse (Py.lstrip t))) as [r Hr].
  apply (f_equal reverse) in Hr. rewrite reverse_involutive, reverse_app in Hr.
  fold (Py.strip t) in Hr. rewrite Hr.
  destruct (Py.strip t); [done|]. done.
Qed.

Lemma strip_idemp (t : pystr) : Py.strip (Py.strip t) = Py.strip t.
Proof. apply strip_id; [apply strip_head | apply strip_last]. Qed.

Lemma translate_newlines_no_cr (t : pystr) : 0xd ∉ translate_newlines t.
Proof.
  assert (H : ∀ n (u : pystr), (length u ≤ n)%nat → 0xd ∉ translate_newlines u).
  { induction n as [|n IH]; intros [|c u] Hlen; simpl in *;
      try apply not_elem_of_nil; [lia|].
    destruct (N.eqb_spec c 0xd) as [->|Hc].
    - apply not_elem_of_cons. split; [done|].
      destruct u as [|c' u]; [apply not_elem_of_nil|].
      destruct (c' =? 0xa); apply IH; simpl in *; lia.
    - apply not_elem_of_cons. split; [done|]. apply IH. lia. }
  by apply (H (length t)).
Qed.

(** A line of the file: its text, with or without the final newline. *)
Lemma lines_from_shape (t cur line : pystr) :
  0xa ∉ cur → line ∈ lines_from cur t →
  (∃ body, (0xa ∉ body) ∧ (line = body ++ [0xa] ∨ line = body)) ∧
  (∀ x, x ∈ line → x ∈ cur ∨ x ∈ t).
Proof.
  revert cur. induction t as [|c t IH]; intros cur Hcur Hin; simpl in Hin.
  - destruct cur as [|y cur]; [by apply elem_of_nil in Hin|].
    apply list_elem_of_singleton in Hin as ->. split.
    + exists (reverse (y :: cur)). split; [|by right].
      by rewrite elem_of_reverse.
    + intros x. rewrite elem_of_reverse. auto.
  - destruct (N.eqb_spec c 0xa) as [->|Hc].
    + apply elem_of_cons in Hin as [->|Hin].
      * split.
        -- exists (reverse cur). rewrite reverse_cons. split; [|by left].
           by rewrite elem_of_reverse.
        -- intros x. rewrite elem_of_reverse, !elem_of_cons. tauto.
      * apply IH in Hin as [H1 H2]; [|apply not_elem_of_nil]. split; [done|].
        intros x Hx. apply H2 in Hx as [Hx|Hx]; [by apply elem_of_nil in Hx|].
        right. by right.
    + apply IH in Hin as [H1 H2].
      * split; [done|]. intros x Hx. apply H2 in Hx. 
        rewrite !elem_of_cons in *. tauto.
      * apply not_elem_of_cons. split; [done|done].
Qed.

Lemma strip_of_line_clean (line : pystr) :
  (∃ body, (0xa ∉ body) ∧ (line = body ++ [0xa] ∨ line = body)) →
  0xd ∉ line → Py.strip line ≠ [] → clean (Py.strip line).
Proof.
  intros (body & Hb & Hline) Hcr Hne.
  destruct (strip_infix line) as (l & r & Hlr).
  pose proof (strip_last line) as Hlast.
  split_and!; [done|apply strip_idemp| |].
  - intros Hin. remember (Py.strip line) as s eqn:Hs. clear Hs.
    destruct Hline as [Hline|Hline]; subst line.
    + destruct r as [|z r _] using rev_ind.
      * rewrite app_nil_r in Hlr.
        destruct s as [|z s _] using rev_ind; [done|].
        rewrite app_assoc in Hlr. apply app_inj_tail in Hlr as [_ <-].
        specialize (Hlast 0xa). rewrite last_snoc in Hlast.
        by specialize (Hlast eq_refl).
      * rewrite !app_assoc in Hlr. apply app_inj_tail in Hlr as [-> _].
        apply Hb. rewrite !elem_of_app. auto.
    + apply Hb. rewrite Hlr, !elem_of_app. auto.
  - intros Hin. apply Hcr. rewrite Hlr, !elem_of_app. auto.
Qed.

Lemma read_clean (file : option pystr) c :
  c ∈ read_stock_list file → clean c.
Proof.
  destruct file as [content|]; simpl; [|by intros ?%elem_of_empty].
  rewrite elem_of_list_to_set, list_elem_of_filter, list_elem_of_fmap.
  intros [Hne (line & -> & Hline)].
  apply lines_from_shape in Hline as [Hshape Hsub]; [|apply not_elem_of_nil].
  apply strip_of_line_clean; [done| |by destruct (Py.strip line)].
  intros Hin. apply Hsub in Hin as [Hin|Hin]; [by apply elem_of_nil in Hin|].
  by apply translate_newlines_no_cr in Hin.
Qed.

End Reading.

Section Reconciler.

Implicit Types (existing : gset pystr) (st : LoopState) (file : option pystr).

Lemma reconcile_noop existing st :
  new_stocks st = ∅ → should_clear st = false →
  reconcile existing st =
    {| list_changed := false; existing_stocks := existing;
       written := None; change_reply := None |}.
Proof.
  intros Hn Hc. unfold reconcile. rewrite Hn, Hc.
  by rewrite bool_decide_eq_false_2 by (intros H; by apply H).
Qed.

Lemma reconcile_add existing st :
  new_stocks st ≠ ∅ → should_clear st = false →
  existing_stocks (reconcile existing st) = existing ∪ new_stocks st ∧
  written (reconcile existing st) = Some (write_stock_list (existing ∪ new_stocks st)).
Proof.
  intros Hn Hc. unfold reconcile. rewrite Hc.
  by rewrite bool_decide_eq_true_2.
Qed.

Lemma reconcile_clear existing st :
  should_clear st = true →
  existing_stocks (reconcile existing st) = new_stocks st ∧
  written (reconcile existing st) = Some (write_stock_list (new_stocks st)).
Proof.
  intros Hc. unfold reconcile. rewrite Hc, orb_true_r. done.
Qed.

Lemma write_empty : write_stock_list ∅ = [].
Proof. unfold write_stock_list. by rewrite sorted_set_empty. Qed.

(** The file holds the in-memory list once a cycle is over. *)
Lemma cycle_read file st :
  (∀ c, c ∈ new_stocks st → is_code c) →
  read_stock_list (cycle file st)
  = existing_stocks (reconcile (read_stock_list file) st).
Proof.
  intros Hcodes. unfold cycle, file_after, reconcile.
  destruct (bool_decide (new_stocks st ≠ ∅) || should_clear st); [|done].
  cbn [written existing_stocks]. apply read_write.
  intros c Hc. destruct (should_clear st).
  - by apply code_clean, Hcodes.
  - apply elem_of_union in Hc as [Hc|Hc].
    + by eapply read_clean.
    + by apply code_clean, Hcodes.
Qed.

(** C2.  When a clear was requested, whatever the list held before, the
    list after step 4 is exactly the codes found in the batch, and the
    file is rewritten with exactly these codes; read back in the next run
    (codes being six digits), the file gives this set again. *)
Theorem clear_keeps_exactly_new_codes existing st :
  should_clear st = true →
  existing_stocks (reconcile existing st) = new_stocks st ∧
  written (reconcile existing st) = Some (write_stock_list (new_stocks st)) ∧
  ((∀ c, c ∈ new_stocks st → is_code c) →
   ∀ file, read_stock_list (cycle file st) = new_stocks st).
Proof.
  intros Hc. destruct (reconcile_clear existing st Hc) as [H1 H2].
  split_and!; [done..|].
  intros Hcodes file. rewrite cycle_read by done.
  by apply reconcile_clear.
Qed.

Lemma clear_keeps_exactly_new_codes_witness :
  should_clear (intent {[ Py.lit "600970" ]} true) = true ∧
  existing_stocks
    (reconcile {[ Py.lit "000001"; Py.lit "601088" ]}
               (intent {[ Py.lit "600970" ]} true))
  = {[ Py.lit "600970" ]} ∧
  written
    (reconcile {[ Py.lit "000001"; Py.lit "601088" ]}
               (intent {[ Py.lit "600970" ]} true))
  = Some (Py.lit "600970
").
Proof.
  split; [reflexivity|].
  destruct (clear_keeps_exactly_new_codes
              {[ Py.lit "000001"; Py.lit "601088" ]}
              (intent {[ Py.lit "600970" ]} true) eq_refl) as (H1 & H2 & _).
  split; [exact H1|]. rewrite H2. reflexivity.
Defined.

(** C4.  The file is written if and only if a clear was requested or a
    code was found.  With neither, nothing is written and both the list
    and the file stay as they were; a clear without codes writes the
    empty file. *)
Theorem write_iff_clear_or_codes existing st :
  (is_Some (written (reconcile existing st))
     ↔ should_clear st = true ∨ new_stocks st ≠ ∅) ∧
  (list_changed (reconcile existing st) = true
     ↔ is_Some (written (reconcile existing st))) ∧
  (should_clear st = false → new_stocks st = ∅ →
     written (reconcile existing st) = None ∧
     existing_stocks (reconcile existing st) = existing ∧
     ∀ file, cycle file st = file) ∧
  (should_clear st = true → new_stocks st = ∅ →
     written (reconcile existing st) = Some []).
Proof.
  split_and!.
  - unfold reconcile. destruct (should_clear st); case_bool_decide as Hn; simpl;
      split; intros Hw; eauto; try by destruct Hw.
  - unfold reconcile. destruct (_ || _); simpl; split; intros Hw; eauto;
      [done | by destruct Hw].
  - intros Hc Hn. rewrite reconcile_noop by done. split_and!; [done..|].
    intros file. unfold cycle. by rewrite reconcile_noop.
  - intros Hc Hn. destruct (reconcile_clear existing st Hc) as [_ ->].
    by rewrite Hn, write_empty.
Qed.

Lemma cycle_no_clear file st :
  should_clear st = false →
  cycle file st =
    if decide (new_stocks st = ∅) then file
    else Some (write_stock_list (read_stock_list file ∪ new_stocks st)).
Proof.
  intros Hc. unfold cycle, file_after, reconcile. rewrite Hc, orb_false_r.
  destruct (decide (new_stocks st = ∅)) as [He|Hne].
  - by rewrite bool_decide_eq_false_2 by (intros Hw; by apply Hw).
  - by rewrite bool_decide_eq_true_2.
Qed.

Lemma reconcile_no_clear existing st :
  should_clear st = false →
  existing_stocks (reconcile existing st) = existing ∪ new_stocks st.
Proof.
  intros Hc. unfold reconcile. rewrite Hc, orb_false_r.
  destruct (decide (new_stocks st = ∅)) as [He|Hne].
  - rewrite bool_decide_eq_false_2 by (intros Hw; by apply Hw).
    cbn. rewrite He. by rewrite (right_id_L ∅ (∪)).
  - by rewrite bool_decide_eq_true_2.
Qed.

(** C3.  Without a clear, step 4 leaves the union of the list and the
    codes found.  So adding the codes A and then the codes B leaves
    existing ∪ A ∪ B, the same list as adding A ∪ B at once; and run on
    the file, the two cycles leave the very file that the single cycle
    leaves, which reads back as the union of what the file held with A
    and B. *)
Theorem union_law existing (stA stB stAB : LoopState) :
  should_clear stA = false → should_clear stB = false →
  should_clear stAB = false →
  new_stocks stAB = new_stocks stA ∪ new_stocks stB →
  existing_stocks (reconcile (existing_stocks (reconcile existing stA)) stB)
    = existing_stocks (reconcile existing stAB) ∧
  existing_stocks (reconcile (existing_stocks (reconcile existing stA)) stB)
    = existing ∪ new_stocks stA ∪ new_stocks stB ∧
  existing_stocks (reconcile existing stAB)
    = existing ∪ new_stocks stA ∪ new_stocks stB ∧
  ((∀ c, c ∈ new_stocks stAB → is_code c) →
   ∀ file,
     cycle (cycle file stA) stB = cycle file stAB ∧
     read_stock_list (cycle file stAB)
       = read_stock_list file ∪ new_stocks stA ∪ new_stocks stB ∧
     (new_stocks stAB ≠ ∅ →
      cycle file stAB
        = Some (write_stock_list
                  (read_stock_list file ∪ new_stocks stA ∪ new_stocks stB)))).
Proof.
  intros HA HB HAB Hu.
  assert (H2 : existing_stocks
                 (reconcile (existing_stocks (reconcile existing stA)) stB)
               = existing ∪ new_stocks stA ∪ new_stocks stB)
    by (by rewrite !reconcile_no_clear by assumption).
  assert (H1 : existing_stocks (reconcile existing stAB)
               = existing ∪ new_stocks stA ∪ new_stocks stB)
    by (rewrite reconcile_no_clear by assumption; rewrite Hu;
        by rewrite (assoc_L (∪))).
  split_and!; [by rewrite H1, H2|exact H2|exact H1|].
  clear H1 H2. intros Hcodes file. split_and!.
  - rewrite (cycle_no_clear file stA), (cycle_no_clear file stAB) by done.
    destruct (decide (new_stocks stA = ∅)) as [Ha|Ha].
    + rewrite cycle_no_clear by done.
      rewrite Hu, Ha. by rewrite (left_id_L ∅ (∪)).
    + rewrite cycle_no_clear by done.
      rewrite read_write.
      2:{ intros c [Hc|Hc]%elem_of_union; [by eapply read_clean|].
          apply code_clean, Hcodes. rewrite Hu. apply elem_of_union. by left. }
      rewrite (decide_False (P := new_stocks stAB = ∅)).
      2:{ rewrite Hu. intros He. apply Ha. apply empty_union_L in He. tauto. }
      destruct (decide (new_stocks stB = ∅)) as [Hb|Hb].
      * rewrite Hu, Hb. by rewrite (right_id_L ∅ (∪)).
      * rewrite Hu. by rewrite (assoc_L (∪)).
  - rewrite cycle_read by done. rewrite reconcile_no_clear by done.
    rewrite Hu. by rewrite (assoc_L (∪)).
  - intros Hne. rewrite cycle_no_clear by done. rewrite decide_False by done.
    rewrite Hu. by rewrite (assoc_L (∪)).
Qed.

Lemma union_law_witness :
  existing_stocks
    (reconcile
       (existing_stocks (reconcile {[ Py.lit "000001" ]}
                                   (intent {[ Py.lit "600970" ]} false)))
       (intent {[ Py.lit "601088" ]} false))
  = {[ Py.lit "000001" ]} ∪ {[ Py.lit "600970" ]} ∪ {[ Py.lit "601088" ]} ∧
  existing_stocks
    (reconcile {[ Py.lit "000001" ]}
               (intent ({[ Py.lit "600970" ]} ∪ {[ Py.lit "601088" ]}) false))
  = {[ Py.lit "000001" ]} ∪ {[ Py.lit "600970" ]} ∪ {[ Py.lit "601088" ]} ∧
  cycle (cycle (Some (Py.lit "000001
")) (intent {[ Py.lit "600970" ]} false))
        (intent {[ Py.lit "601088" ]} false)
  = cycle (Some (Py.lit "000001
"))
          (intent ({[ Py.lit "600970" ]} ∪ {[ Py.lit "601088" ]}) false) ∧
  cycle (Some (Py.lit "000001
"))
        (intent ({[ Py.lit "600970" ]} ∪ {[ Py.lit "601088" ]}) false)
  = Some (Py.lit "000001
600970
601088
").
Proof.
  assert (Hcodes : ∀ c,
            c ∈ new_stocks
                  (intent ({[ Py.lit "600970" ]} ∪ {[ Py.lit "601088" ]}) false) →
            is_code c).
  { intros c Hc. cbn [new_stocks intent] in Hc.
    apply elem_of_union in Hc as [Hc|Hc];
      apply elem_of_singleton in Hc; rewrite Hc; split; reflexivity. }
  destruct (union_law {[ Py.lit "000001" ]}
              (intent {[ Py.lit "600970" ]} false)
              (intent {[ Py.lit "601088" ]} false)
              (intent ({[ Py.lit "600970" ]} ∪ {[ Py.lit "601088" ]}) false)
              eq_refl eq_refl eq_refl eq_refl) as (_ & H2 & H1 & Hfile).
  destruct (Hfile Hcodes (Some (Py.lit "000001
"))) as (Hcyc & _ & _).
  split; [exact H2|]. split; [exact H1|]. split; [exact Hcyc|].
  vm_compute. reflexivity.
Defined.

End Reconciler.

Section OnDisk.

Implicit Types (existing : gset pystr) (st : LoopState) (file : option pystr).

Lemma written_is_final existing st content :
  written (reconcile existing st) = Some content →
  content = write_stock_list (existing_stocks (reconcile existing st)).
Proof.
  unfold reconcile. destruct (_ || _); cbn; [|done]. by intros [= <-].
Qed.

Lemma final_codes existing st c :
  (∀ c, c ∈ existing → is_code c) →
  (∀ c, c ∈ new_stocks st → is_code c) →
  c ∈ existing_stocks (reconcile existing st) → is_code c.
Proof.
  intros He Hn. unfold reconcile.
  destruct (_ || _); cbn; [|by apply He].
  destruct (should_clear st); [by apply Hn|].
  intros [Hc|Hc]%elem_of_union; auto.
Qed.

Lemma file_lines_written (s : gset pystr) :
  (∀ c, c ∈ s → clean c) →
  file_lines (write_stock_list s) = (fun stock => stock ++ [0xa]) <$> sorted_set s.
Proof.
  intros Hc. unfold write_stock_list, file_lines.
  assert (Hl : ∀ c, c ∈ sorted_set s → clean c).
  { intros c Hin. apply Hc. by apply elem_of_sorted_set. }
  rewrite translate_newlines_id
    by (apply written_no_cr; intros c Hin; by apply Hl in Hin as (_ & _ & _ & Hd)).
  by rewrite lines_of_written by (intros c Hin; by apply Hl in Hin as (_ & _ & Ha & _)).
Qed.

End OnDisk.

Section Extraction.

Implicit Types (st : LoopState) (u : Update) (admin : option pystr) (now : Q).

Lemma loop_body_skipped admin now st u :
  unauthorized admin u = true ∨ stale now u = true →
  loop_body admin now st u = seen (update_id u) st.
Proof.
  unfold loop_body. intros [H|H].
  - by rewrite H.
  - rewrite H. by destruct (unauthorized admin u).
Qed.

Lemma loop_body_seen admin now st u k :
  loop_body admin now (seen k st) u = seen k (loop_body admin now st u).
Proof.
  unfold loop_body, seen. cbn.
  assert (Hmax : Z.max (Z.max (latest_update_id st) k) (update_id u)
               = Z.max (Z.max (latest_update_id st) (update_id u)) k) by lia.
  rewrite Hmax.
  destruct (unauthorized admin u); [done|].
  destruct (stale now u); done.
Qed.

Lemma fold_seen admin now (l : list Update) st k :
  fold_left (loop_body admin now) l (seen k st)
  = seen k (fold_left (loop_body admin now) l st).
Proof.
  revert st. induction l as [|u l IH]; intros st; [done|].
  cbn [fold_left]. by rewrite loop_body_seen, IH.
Qed.

(** C7.  A message that is skipped, because an authorized chat is
    configured and the message comes from another one, or because it is
    older than 2400 seconds, leaves the codes and both flags as they are
    without it; its sequence number still enters the maximum. *)
Theorem skipped_message_only_advances_sequence admin now
    (before after : list Update) u :
  (env_set admin = true ∧ chat_id_of (message u) ≠ env_str admin) ∨
  (2400 < now - inject_Z (date_of (message u)))%Q →
  let with_u := parse_messages admin now (before ++ u :: after) in
  let without := parse_messages admin now (before ++ after) in
  new_stocks with_u = new_stocks without ∧
  should_clear with_u = should_clear without ∧
  should_view with_u = should_view without ∧
  latest_update_id with_u = Z.max (latest_update_id without) (update_id u).
Proof.
  intros Hskip with_u without.
  assert (Hs : unauthorized admin u = true ∨ stale now u = true).
  { destruct Hskip as [[Ha Hne]|Hold].
    - left. unfold unauthorized, Py.str_eqb. rewrite Ha.
      by rewrite bool_decide_eq_false_2.
    - right. unfold stale. apply negb_true_iff.
      destruct (Qle_bool _ _) eqn:Hle; [|done].
      apply Qle_bool_iff in Hle. exfalso. by apply (Qlt_not_le _ _ Hold). }
  assert (Heq : with_u = seen (update_id u) without).
  { unfold with_u, without, parse_messages.
    rewrite !fold_left_app. cbn [fold_left].
    rewrite (loop_body_skipped _ _ _ _ Hs). apply fold_seen. }
  by rewrite Heq.
Qed.

Lemma skipped_message_only_advances_sequence_witness :
  should_clear
    (parse_messages (Some (Py.lit "42")) 1000
       ([text_message 5 42 900 (Py.lit "600970")]
        ++ text_message 9 43 900 (Py.lit "999999 clear") :: []))
  = false ∧
  latest_update_id
    (parse_messages (Some (Py.lit "42")) 1000
       ([text_message 5 42 900 (Py.lit "600970")]
        ++ text_message 9 43 900 (Py.lit "999999 clear") :: []))
  = Z.max
      (latest_update_id
         (parse_messages (Some (Py.lit "42")) 1000
            ([text_message 5 42 900 (Py.lit "600970")] ++ [])))
      9.
Proof.
  destruct (skipped_message_only_advances_sequence (Some (Py.lit "42")) 1000
              [text_message 5 42 900 (Py.lit "600970")] []
              (text_message 9 43 900 (Py.lit "999999 clear")))
    as (_ & Hc & _ & Hl).
  - left. split; [reflexivity|]. intros Heq. discriminate Heq.
  - split; [|exact Hl]. rewrite Hc. reflexivity.
Defined.

End Extraction.

Section FindAll.

Lemma findall_step (t : pystr) :
  Py.findall_d6 t =
    match t with
    | [] => []
    | _ :: tl =>
        if bool_decide (6 ≤ length t)%nat && forallb Py.is_digit (take 6 t)
        then take 6 t :: Py.findall_d6 (drop 6 t)
        else Py.findall_d6 tl
    end.
Proof.
  destruct t as [|a [|b [|c [|d [|e [|f rest]]]]]]; try done.
Qed.

Lemma blocks6_step (r : pystr) :
  blocks6 r =
    if bool_decide (6 ≤ length r)%nat then take 6 r :: blocks6 (drop 6 r) else [].
Proof.
  destruct r as [|a [|b [|c [|d [|e [|f rest]]]]]]; try done.
Qed.

Lemma findall_skip x (r : pystr) :
  Py.is_digit x = false → Py.findall_d6 (x :: r) = Py.findall_d6 r.
Proof.
  intros Hx. rewrite findall_step.
  destruct (bool_decide (6 ≤ length (x :: r))%nat) eqn:Hlen; [|done].
  cbn [andb]. replace (take 6 (x :: r)) with (x :: take 5 r) by done.
  cbn [forallb]. by rewrite Hx.
Qed.

Lemma findall_short (d rest : pystr) :
  (length d < 6)%nat → run_end rest →
  Py.findall_d6 (d ++ rest) = Py.findall_d6 rest.
Proof.
  intros Hlen Hend. induction d as [|a d IH]; [done|].
  cbn [length] in Hlen. rewrite findall_step. cbn [app].
  destruct (bool_decide (6 ≤ length (a :: d ++ rest))%nat) eqn:Hl.
  - apply bool_decide_eq_true in Hl.
    assert (Hf : forallb Py.is_digit (take 6 (a :: d ++ rest)) = false).
    { destruct rest as [|x rest].
      { rewrite app_nil_r in Hl. cbn [length] in Hl. lia. }
      change (Py.is_digit x = false) in Hend.
      apply not_true_is_false. intros Hall. rewrite forallb_forall in Hall.
      assert (Hin : In x (take 6 (a :: d ++ x :: rest))).
      { apply list_elem_of_In.
        change (a :: d ++ x :: rest) with ((a :: d) ++ x :: rest).
        rewrite take_app_ge by (cbn [length]; lia).
        apply elem_of_app. right.
        destruct (6 - length (a :: d))%nat as [|n] eqn:Hn;
          [cbn [length] in Hn; lia|]. left. }
      apply Hall in Hin. congruence. }
    rewrite Hf. cbn [andb]. apply IH. lia.
  - cbn [andb]. apply IH. lia.
Qed.

Lemma findall_run (n : nat) (d rest : pystr) :
  (length d ≤ n)%nat → Forall (fun c => Py.is_digit c = true) d → run_end rest →
  Py.findall_d6 (d ++ rest) = blocks6 d ++ Py.findall_d6 rest.
Proof.
  revert d. induction n as [|n IH]; intros d Hn Hd Hend.
  { destruct d; [done|cbn [length] in Hn; lia]. }
  rewrite blocks6_step. case_bool_decide as Hlen.
  - destruct d as [|a d]; [cbn [length] in Hlen; lia|].
    rewrite findall_step. cbn [app].
    change (a :: d ++ rest) with ((a :: d) ++ rest).
    rewrite bool_decide_eq_true_2 by (rewrite length_app; lia).
    rewrite take_app_le, drop_app_le by lia.
    assert (Hall : forallb Py.is_digit (take 6 (a :: d)) = true).
    { apply forallb_forall. intros x Hx%list_elem_of_In.
      pose proof (Forall_take _ 6%nat _ Hd) as Ht.
      rewrite Forall_forall in Ht. by apply Ht. }
    rewrite Hall. cbn [andb app]. f_equal.
    apply IH; [|by apply Forall_drop|done].
    rewrite length_drop. cbn [length] in *. lia.
  - apply findall_short; [lia|done].
Qed.

Lemma digit_runs_from_run (d cur rest : pystr) :
  Forall (fun c => Py.is_digit c = true) d →
  digit_runs_from cur (d ++ rest) = digit_runs_from (reverse d ++ cur) rest.
Proof.
  revert cur. induction d as [|a d IH]; intros cur Hd; [done|].
  apply Forall_cons in Hd as [Ha Hd]. cbn [app digit_runs_from].
  rewrite Ha, IH by done. by rewrite reverse_cons, <- app_assoc.
Qed.

Lemma span_digits (t : pystr) :
  ∃ d rest, t = d ++ rest ∧ Forall (fun c => Py.is_digit c = true) d ∧ run_end rest.
Proof.
  induction t as [|c t (d & rest & -> & Hd & Hend)].
  - by exists [], [].
  - destruct (Py.is_digit c) eqn:Hc.
    + exists (c :: d), rest. split_and!; [done|by constructor|done].
    + exists [], (c :: d ++ rest). split_and!; [done|constructor|done].
Qed.

Lemma findall_blocks_upto (n : nat) (t : pystr) :
  (length t ≤ n)%nat →
  Py.findall_d6 t = concat (blocks6 <$> digit_runs t).
Proof.
  revert t. induction n as [|n IH]; intros t Hn.
  { destruct t; [done|cbn [length] in Hn; lia]. }
  destruct (span_digits t) as (d & rest & -> & Hd & Hend).
  rewrite (findall_run (length d)) by done.
  unfold digit_runs. rewrite digit_runs_from_run, app_nil_r by done.
  destruct rest as [|x rest].
  - cbn [digit_runs_from Py.findall_d6]. rewrite app_nil_r.
    destruct (reverse d) as [|y r] eqn:Hr.
    + apply (f_equal reverse) in Hr. rewrite reverse_involutive in Hr.
      by subst d.
    + rewrite <- Hr, reverse_involutive. cbn. by rewrite app_nil_r.
  - change (Py.is_digit x = false) in Hend. rewrite findall_skip by done.
    cbn [digit_runs_from]. rewrite Hend.
    rewrite length_app in Hn. cbn [length] in Hn.
    rewrite (IH rest) by lia. fold (digit_runs rest).
    destruct (reverse d) as [|y r] eqn:Hr.
    + apply (f_equal reverse) in Hr. rewrite reverse_involutive in Hr.
      by subst d.
    + rewrite <- Hr, reverse_involutive. done.
Qed.

(** The matches of [\d{6}] are the six-digit blocks of the digit runs. *)
Lemma findall_blocks (t : pystr) :
  Py.findall_d6 t = concat (blocks6 <$> digit_runs t).
Proof. by apply (findall_blocks_upto (length t)). Qed.

End FindAll.

Section Codes.

Implicit Types (st : LoopState) (u : Update) (admin : option pystr) (now : Q).

Lemma fold_add_codes (codes : list pystr) (s : gset pystr) :
  fold_left (fun acc code => acc ∪ {[ code ]}) codes s = s ∪ list_to_set codes.
Proof.
  revert s. induction codes as [|c codes IH]; intros s; cbn [fold_left].
  - by rewrite list_to_set_nil, (right_id_L ∅ (∪)).
  - rewrite IH, list_to_set_cons. by rewrite (assoc_L (∪)).
Qed.

Lemma loop_body_codes admin now st u :
  new_stocks (loop_body admin now st u) =
    new_stocks st ∪
    (if decide (accepted admin now u)
     then list_to_set (Py.findall_d6 (text_of (message u))) else ∅).
Proof.
  unfold loop_body.
  destruct (decide (accepted admin now u)) as [[Ha Hs]|Hn].
  - rewrite Ha, Hs. cbn. apply fold_add_codes.
  - rewrite (right_id_L ∅ (∪)).
    destruct (unauthorized admin u) eqn:Ha; [done|].
    destruct (stale now u) eqn:Hs; [done|].
    by destruct Hn.
Qed.

Lemma fold_codes admin now (l : list Update) st :
  new_stocks (fold_left (loop_body admin now) l st) =
    new_stocks st ∪
    list_to_set (concat ((fun u => Py.findall_d6 (text_of (message u)))
                         <$> filter (accepted admin now) l)).
Proof.
  revert st. induction l as [|u l IH]; intros st; cbn [fold_left].
  - cbn. by rewrite (right_id_L ∅ (∪)).
  - rewrite IH, loop_body_codes. rewrite filter_cons.
    destruct (decide (accepted admin now u)).
    + rewrite fmap_cons. cbn [concat]. rewrite list_to_set_app_L.
      by rewrite (assoc_L (∪)).
    + by rewrite (right_id_L ∅ (∪)).
Qed.

Lemma parse_codes admin now (batch : list Update) :
  new_stocks (parse_messages admin now batch) =
    list_to_set (concat ((fun u => Py.findall_d6 (text_of (message u)))
                         <$> filter (accepted admin now) batch)).
Proof.
  unfold parse_messages. rewrite fold_codes. cbn. by rewrite (left_id_L ∅ (∪)).
Qed.

Lemma elem_of_parse_codes admin now (batch : list Update) c :
  c ∈ new_stocks (parse_messages admin now batch) ↔
  ∃ u, u ∈ batch ∧ accepted admin now u ∧ c ∈ Py.findall_d6 (text_of (message u)).
Proof.
  rewrite parse_codes, elem_of_list_to_set. split.
  - intros Hc. apply list_elem_of_In, in_concat in Hc as (l & Hl & Hc).
    apply list_elem_of_In, list_elem_of_fmap in Hl as (u & -> & Hu).
    apply list_elem_of_filter in Hu as [Ha Hu].
    exists u. split_and!; [done..|]. by apply list_elem_of_In.
  - intros (u & Hu & Ha & Hc).
    apply list_elem_of_In, in_concat.
    eexists. split; [|apply list_elem_of_In, Hc].
    apply list_elem_of_In, list_elem_of_fmap. exists u. split; [done|].
    by apply list_elem_of_filter.
Qed.

(** C1 as stated fails: a run of seven digits yields its first six
    digits as a code, although it is no run of exactly six digits. *)
Lemma seven_digits_give_a_code :
  new_stocks (parse_messages None 100 [text_message 1 42 90 (Py.lit "1234567")])
  ≠ runs_of_exactly_six None 100 [text_message 1 42 90 (Py.lit "1234567")].
Proof.
  intros Heq. apply (f_equal elements) in Heq. vm_compute in Heq. discriminate.
Qed.

(** C1, amended.  The codes found are exactly the six-digit blocks, cut
    from left to right, of the digit runs in the texts of the accepted
    messages: all of them, whatever the order of the messages, each once.
    A run of exactly six digits gives itself, a shorter run nothing, and
    a longer run its leading block followed by the blocks of the rest. *)
Theorem codes_found_are_six_digit_blocks admin now (batch : list Update) :
  new_stocks (parse_messages admin now batch) =
    list_to_set
      (concat ((fun u => concat (blocks6 <$> digit_runs (text_of (message u))))
               <$> filter (accepted admin now) batch)) ∧
  (∀ batch', batch ≡ₚ batch' →
     new_stocks (parse_messages admin now batch')
     = new_stocks (parse_messages admin now batch)) ∧
  NoDup (elements (new_stocks (parse_messages admin now batch))) ∧
  (∀ r : pystr, length r = 6%nat → blocks6 r = [r]) ∧
  (∀ r : pystr, (length r < 6)%nat → blocks6 r = []) ∧
  (∀ r : pystr, (6 < length r)%nat → blocks6 r = take 6 r :: blocks6 (drop 6 r)).
Proof.
  split_and!.
  - rewrite parse_codes. do 2 f_equal.
    apply list_fmap_ext. intros _ u _. apply findall_blocks.
  - intros batch' Hp. apply set_eq. intros c.
    rewrite !elem_of_parse_codes.
    split; intros (u & Hu & H); exists u; (split; [|done]).
    + by rewrite Hp.
    + by rewrite <- Hp.
  - apply NoDup_elements.
  - intros r Hr. by destruct r as [|a [|b [|c [|d [|e [|f [|g rest]]]]]]].
  - intros r Hr.
    destruct r as [|a [|b [|c [|d [|e [|f rest]]]]]]; try done.
    cbn [length] in Hr. lia.
  - intros r Hr. rewrite blocks6_step at 1.
    by rewrite bool_decide_eq_true_2 by lia.
Qed.

End Codes.
Section MoreExtraction.

Implicit Types (st : LoopState) (u : Update) (admin : option pystr) (now : Q).

Lemma loop_body_clear admin now st u :
  should_clear (loop_body admin now st u) =
    should_clear st ||
    (bool_decide (accepted admin now u) &&
     Py.search_any clear_keywords (text_of (message u))).
Proof.
  unfold loop_body.
  destruct (decide (accepted admin now u)) as [[Ha Hs]|Hn].
  - rewrite Ha, Hs, bool_decide_eq_true_2 by done. cbn [should_clear andb].
    destruct (Py.search_any clear_keywords _), (should_clear st); done.
  - rewrite bool_decide_eq_false_2 by done. rewrite orb_false_r.
    destruct (unauthorized admin u) eqn:Ha; [done|].
    destruct (stale now u) eqn:Hs; [done|]. by destruct Hn.
Qed.

Lemma loop_body_view admin now st u :
  should_view (loop_body admin now st u) =
    should_view st ||
    (bool_decide (accepted admin now u) &&
     Py.search_any view_keywords (text_of (message u))).
Proof.
  unfold loop_body.
  destruct (decide (accepted admin now u)) as [[Ha Hs]|Hn].
  - rewrite Ha, Hs, bool_decide_eq_true_2 by done. cbn [should_view andb].
    destruct (Py.search_any view_keywords _), (should_view st); done.
  - rewrite bool_decide_eq_false_2 by done. rewrite orb_false_r.
    destruct (unauthorized admin u) eqn:Ha; [done|].
    destruct (stale now u) eqn:Hs; [done|]. by destruct Hn.
Qed.

Lemma fold_clear admin now (l : list Update) st :
  should_clear (fold_left (loop_body admin now) l st) = true ↔
  should_clear st = true ∨
  ∃ u, u ∈ l ∧ accepted admin now u ∧
       Py.search_any clear_keywords (text_of (message u)) = true.
Proof.
  revert st. induction l as [|u l IH]; intros st; cbn [fold_left].
  - split; [by left|]. intros [?|(u & Hu & _)]; [done|]. by apply elem_of_nil in Hu.
  - rewrite IH, loop_body_clear, orb_true_iff, andb_true_iff, bool_decide_eq_true.
    split.
    + intros [[?|[? ?]]|(v & Hv & ?)]; [by left| |].
      * right. exists u. split; [left|done].
      * right. exists v. split; [by right|done].
    + intros [?|(v & Hv & Ha & Hk)]; [by left; left|].
      apply elem_of_cons in Hv as [->|Hv].
      * left. by right.
      * right. by exists v.
Qed.

Lemma fold_view admin now (l : list Update) st :
  should_view (fold_left (loop_body admin now) l st) = true ↔
  should_view st = true ∨
  ∃ u, u ∈ l ∧ accepted admin now u ∧
       Py.search_any view_keywords (text_of (message u)) = true.
Proof.
  revert st. induction l as [|u l IH]; intros st; cbn [fold_left].
  - split; [by left|]. intros [?|(u & Hu & _)]; [done|]. by apply elem_of_nil in Hu.
  - rewrite IH, loop_body_view, orb_true_iff, andb_true_iff, bool_decide_eq_true.
    split.
    + intros [[?|[? ?]]|(v & Hv & ?)]; [by left| |].
      * right. exists u. split; [left|done].
      * right. exists v. split; [by right|done].
    + intros [?|(v & Hv & Ha & Hk)]; [by left; left|].
      apply elem_of_cons in Hv as [->|Hv].
      * left. by right.
      * right. by exists v.
Qed.

(** X1.  The loop ends with the clear flag set exactly when some message
    it accepted contains a clear keyword, and with the view flag set
    exactly when some accepted message contains a view keyword. *)
Theorem flags_come_from_accepted_messages admin now (batch : list Update) :
  (should_clear (parse_messages admin now batch) = true ↔
   ∃ u, u ∈ batch ∧ accepted admin now u ∧
        Py.search_any clear_keywords (text_of (message u)) = true) ∧
  (should_view (parse_messages admin now batch) = true ↔
   ∃ u, u ∈ batch ∧ accepted admin now u ∧
        Py.search_any view_keywords (text_of (message u)) = true).
Proof.
  unfold parse_messages. rewrite fold_clear, fold_view. cbn.
  split; (split; [intros [?|?]; [done|done] | by right]).
Qed.

Lemma loop_body_latest admin now st u :
  latest_update_id (loop_body admin now st u)
  = Z.max (latest_update_id st) (update_id u).
Proof.
  unfold loop_body.
  destruct (unauthorized admin u); [done|]. by destruct (stale now u).
Qed.

Lemma fold_latest admin now (l : list Update) st :
  (0 ≤ latest_update_id st)%Z →
  latest_update_id (fold_left (loop_body admin now) l st)
  = Z.max (latest_update_id st) (max_update_id l).
Proof.
  revert st. induction l as [|u l IH]; intros st Hst;
    cbn [fold_left max_update_id foldr].
  - lia.
  - rewrite IH; rewrite loop_body_latest; fold (max_update_id l); lia.
Qed.

Lemma max_update_id_bound (batch : list Update) u :
  u ∈ batch → (update_id u ≤ max_update_id batch)%Z.
Proof.
  induction batch as [|v batch IH]; [by intros ?%elem_of_nil|].
  cbn [max_update_id foldr]. fold (max_update_id batch).
  intros [->|Hu]%elem_of_cons; [lia|]. apply IH in Hu. lia.
Qed.

Lemma max_update_id_nonneg (batch : list Update) : (0 ≤ max_update_id batch)%Z.
Proof.
  induction batch as [|v batch IH]; [done|].
  cbn [max_update_id foldr]. fold (max_update_id batch). lia.
Qed.

(** X2.  With the token set, the acknowledgment sent is the largest
    sequence number of the batch plus one, whether its message was
    skipped or not, so it lies beyond every update of the batch; it is
    sent as soon as one update has a positive number, and not at all
    otherwise. *)
Theorem acknowledgment_covers_the_batch (w : World) :
  env_set (TG_BOT_TOKEN w) = true →
  offset (main w) =
    (if (0 <? max_update_id (pending w))%Z
     then Some (max_update_id (pending w) + 1)%Z else None) ∧
  (∀ k u, offset (main w) = Some k → u ∈ pending w → (update_id u < k)%Z) ∧
  (∀ u, u ∈ pending w → (0 < update_id u)%Z → is_Some (offset (main w))).
Proof.
  intros Htok.
  assert (Hoff : offset (main w) =
    (if (0 <? max_update_id (pending w))%Z
     then Some (max_update_id (pending w) + 1)%Z else None)).
  { unfold main. rewrite Htok. cbn [negb].
    destruct (pending w) as [|u l] eqn:Hp; [done|].
    cbn [offset]. unfold parse_messages. rewrite fold_latest by done.
    cbn [latest_update_id loop_init].
    pose proof (max_update_id_nonneg (u :: l)).
    by rewrite Z.max_r by done. }
  split; [exact Hoff|]. rewrite Hoff. split.
  - intros k u Hk Hu. apply max_update_id_bound in Hu.
    destruct (Z.ltb_spec 0 (max_update_id (pending w))); [|done].
    injection Hk as <-. lia.
  - intros u Hu Hpos. apply max_update_id_bound in Hu.
    destruct (Z.ltb_spec 0 (max_update_id (pending w))); [by eexists|lia].
Qed.

End MoreExtraction.

Section WholeRun.

Implicit Types (st : LoopState) (u : Update) (admin : option pystr) (now : Q)
  (w : World) (file : option pystr).

Lemma findall_codes_upto (n : nat) (t c : pystr) :
  (length t ≤ n)%nat → c ∈ Py.findall_d6 t → is_code c.
Proof.
  revert t. induction n as [|n IH]; intros t Hn.
  { destruct t; [by intros ?%elem_of_nil|cbn [length] in Hn; lia]. }
  rewrite findall_step. destruct t as [|a t]; [by intros ?%elem_of_nil|].
  cbn [length] in Hn.
  destruct (bool_decide (6 ≤ length (a :: t))%nat) eqn:Hlen; cbn [andb];
    [destruct (forallb Py.is_digit (take 6 (a :: t))) eqn:Hd|].
  - intros [->|Hc]%elem_of_cons.
    + apply bool_decide_eq_true in Hlen. split; [|done].
      rewrite length_take. lia.
    + eapply IH; [|done]. rewrite length_drop. cbn [length]. lia.
  - apply IH. lia.
  - apply IH. lia.
Qed.

(** X3.  Every code the loop collects has exactly six characters, all
    of them decimal digits. *)
Theorem collected_codes_are_six_digits admin now (batch : list Update) c :
  c ∈ new_stocks (parse_messages admin now batch) →
  length c = 6%nat ∧ Forall (fun x => Py.is_digit x = true) c.
Proof.
  intros (u & _ & _ & Hc)%elem_of_parse_codes.
  apply (findall_codes_upto (length (text_of (message u)))) in Hc as [Hl Hd]; [|done].
  split; [done|]. apply Forall_forall. intros x Hx%list_elem_of_In.
  rewrite forallb_forall in Hd. by apply Hd.
Qed.

Lemma parse_codes_valid admin now (batch : list Update) c :
  c ∈ new_stocks (parse_messages admin now batch) → is_code c.
Proof.
  intros (u & _ & _ & Hc)%elem_of_parse_codes.
  by apply (findall_codes_upto (length (text_of (message u)))) in Hc.
Qed.

(** What [main] leaves in the file, when it gets as far as the loop. *)
Lemma main_file w :
  env_set (TG_BOT_TOKEN w) = true → pending w ≠ [] →
  stock_list_after (main w)
  = cycle (stock_list_txt w) (parse_messages (TG_CHAT_ID w) (clock w) (pending w)).
Proof.
  intros Htok Hp. unfold main. rewrite Htok. cbn [negb].
  by destruct (pending w).
Qed.

Lemma main_idle w :
  env_set (TG_BOT_TOKEN w) = false ∨ pending w = [] → main w = idle w.
Proof.
  unfold main. intros [->| ->]; [done|]. by destruct (negb _).
Qed.

(** X4.  [main] leaves the file different from what it found only if
    the token is set and some authorized, fresh message of the batch
    contains a clear keyword or six digits in a row. *)
Theorem file_changes_only_on_accepted_request w :
  stock_list_after (main w) ≠ stock_list_txt w →
  env_set (TG_BOT_TOKEN w) = true ∧
  ∃ u, u ∈ pending w ∧ accepted (TG_CHAT_ID w) (clock w) u ∧
       (Py.search_any clear_keywords (text_of (message u)) = true ∨
        Py.findall_d6 (text_of (message u)) ≠ []).
Proof.
  intros Hch.
  destruct (env_set (TG_BOT_TOKEN w)) eqn:Htok.
  2:{ exfalso. apply Hch. rewrite main_idle by by left. done. }
  destruct (decide (pending w = [])) as [Hp|Hp].
  { exfalso. apply Hch. rewrite main_idle by by right. done. }
  split; [done|]. rewrite main_file in Hch by done.
  set (st := parse_messages (TG_CHAT_ID w) (clock w) (pending w)) in *.
  destruct (should_clear st) eqn:Hc.
  - unfold st, parse_messages in Hc.
    apply fold_clear in Hc as [Hc|(u & Hu & Ha & Hk)]; [done|].
    exists u. auto.
  - destruct (decide (new_stocks st = ∅)) as [Hn|Hn].
    { exfalso. apply Hch. unfold cycle. by rewrite reconcile_noop. }
    apply set_choose_L in Hn as [c Hcin].
    apply elem_of_parse_codes in Hcin as (u & Hu & Ha & Hcu).
    exists u. split_and!; [done..|]. right. intros He. rewrite He in Hcu.
    by apply elem_of_nil in Hcu.
Qed.

Lemma cycle_twice file st :
  (∀ c, c ∈ new_stocks st → is_code c) →
  cycle (cycle file st) st = cycle file st.
Proof.
  intros Hcodes. destruct (should_clear st) eqn:Hc.
  - unfold cycle, file_after.
    destruct (reconcile_clear (read_stock_list file) st Hc) as [_ ->].
    by destruct (reconcile_clear
                   (read_stock_list (Some (write_stock_list (new_stocks st)))) st Hc)
      as [_ ->].
  - rewrite (cycle_no_clear file st) by done.
    destruct (decide (new_stocks st = ∅)) as [Hn|Hn].
    + rewrite cycle_no_clear by done. by rewrite decide_True.
    + rewrite cycle_no_clear by done. rewrite decide_False by done.
      rewrite read_write.
      * by rewrite <- (assoc_L (∪)), (idemp_L (∪)).
      * intros c [Hc'|Hc']%elem_of_union; [by eapply read_clean|].
        by apply code_clean, Hcodes.
Qed.

Lemma loop_body_later admin now later st u :
  stale later u = stale now u →
  loop_body admin later st u = loop_body admin now st u.
Proof. intros H. unfold loop_body. by rewrite H. Qed.

Lemma parse_messages_later admin now later (batch : list Update) :
  (∀ u, u ∈ batch → stale later u = stale now u) →
  parse_messages admin later batch = parse_messages admin now batch.
Proof.
  unfold parse_messages. generalize loop_init.
  induction batch as [|u batch IH]; intros st0 H; [done|].
  cbn [fold_left]. rewrite (loop_body_later admin now later) by (apply H; left).
  apply IH. intros v Hv. apply H. by right.
Qed.

(** X5.  Running [main] again on the same batch at a later time, with the
    file as the first run left it, leaves the same file, provided that
    no message of the batch has become stale in between. *)
Theorem rerun_leaves_the_same_file w (later : Q) :
  (∀ u, u ∈ pending w → stale later u = stale (clock w) u) →
  stock_list_after (main (rerun later w)) = stock_list_after (main w).
Proof.
  intros Hfresh.
  destruct (env_set (TG_BOT_TOKEN w)) eqn:Htok.
  2:{ rewrite (main_idle (rerun later w)) by by left. done. }
  destruct (decide (pending w = [])) as [Hp|Hp].
  { rewrite (main_idle (rerun later w)) by by right. done. }
  rewrite (main_file (rerun later w)) by done.
  cbn [rerun stock_list_txt TG_CHAT_ID clock pending].
  rewrite (parse_messages_later _ (clock w)) by done.
  rewrite main_file by done. apply cycle_twice. intros c. apply parse_codes_valid.
Qed.

(** X6.  A listing is sent only when a view was requested, and it shows,
    in sorted order, exactly the lines that the file holds after the
    run, the changes of the same run included. *)
Theorem listing_shows_the_file_after_the_run w (codes : list pystr) :
  Listing codes ∈ replies (main w) →
  codes = sorted_set (read_stock_list (stock_list_after (main w))) ∧
  should_view (parse_messages (TG_CHAT_ID w) (clock w) (pending w)) = true.
Proof.
  destruct (env_set (TG_BOT_TOKEN w)) eqn:Htok.
  2:{ rewrite main_idle by by left. by intros ?%elem_of_nil. }
  destruct (decide (pending w = [])) as [Hp|Hp].
  { rewrite main_idle by by right. by intros ?%elem_of_nil. }
  rewrite main_file by done.
  rewrite cycle_read by (intros c; apply parse_codes_valid).
  unfold main. rewrite Htok. cbn [negb].
  destruct (pending w) as [|u l] eqn:Hpend; [done|]. cbn [replies].
  set (st := parse_messages (TG_CHAT_ID w) (clock w) (u :: l)).
  intros [Hin|Hin]%elem_of_app.
  - exfalso. unfold reconcile in Hin. destruct (_ || _); cbn in Hin.
    + by apply list_elem_of_singleton in Hin.
    + by apply elem_of_nil in Hin.
  - destruct (should_view st); [|by apply elem_of_nil in Hin].
    apply list_elem_of_singleton in Hin. by injection Hin as ->.
Qed.

(** X7.  Every entry read from [stock_list.txt] is a non-empty string
    that [strip] leaves as it is: it neither starts nor ends with
    whitespace and contains no line break. *)
Theorem lines_read_are_stripped_and_not_empty file c :
  c ∈ read_stock_list file →
  c ≠ [] ∧ Py.strip c = c ∧
  (∀ x, head c = Some x → Py.is_space x = false) ∧
  (∀ x, last c = Some x → Py.is_space x = false) ∧
  (0xa ∉ c) ∧ (0xd ∉ c).
Proof.
  intros Hc. pose proof (read_clean _ _ Hc) as (Hne & Hs & Hn & Hr).
  split_and!; try done.
  - intros x Hx. rewrite <- Hs in Hx. by apply strip_head in Hx.
  - intros x Hx. rewrite <- Hs in Hx. by apply strip_last in Hx.
Qed.

(** X8.  Writing a list and reading the file back gives the list again,
    provided every entry is non-empty, stripped and free of line
    breaks. *)
Theorem written_list_reads_back (s : gset pystr) :
  (∀ c, c ∈ s → c ≠ [] ∧ Py.strip c = c ∧ (0xa ∉ c) ∧ (0xd ∉ c)) →
  read_stock_list (Some (write_stock_list s)) = s.
Proof. intros Hs. apply read_write. intros c Hc. by apply Hs. Qed.

(** X9.  If the file holds only six-digit codes before [main] runs, it
    holds only six-digit codes afterwards. *)
Theorem codes_only_file_stays_codes_only w c :
  (∀ c, c ∈ read_stock_list (stock_list_txt w) → is_code c) →
  c ∈ read_stock_list (stock_list_after (main w)) → is_code c.
Proof.
  intros Hfile.
  destruct (env_set (TG_BOT_TOKEN w)) eqn:Htok.
  2:{ rewrite main_idle by by left. apply Hfile. }
  destruct (decide (pending w = [])) as [Hp|Hp].
  { rewrite main_idle by by right. apply Hfile. }
  rewrite main_file by done.
  rewrite cycle_read by (intros c'; apply parse_codes_valid).
  apply final_codes; [done|]. intros c'. apply parse_codes_valid.
Qed.

End WholeRun.

Section OnDiskInvariant.

Lemma final_clean (file : option pystr) admin now (batch : list Update) c :
  c ∈ existing_stocks (reconcile (read_stock_list file)
                                 (parse_messages admin now batch)) →
  clean c.
Proof.
  unfold reconcile. destruct (_ || _); cbn [existing_stocks];
    [|by apply read_clean].
  destruct (should_clear _).
  - intros Hc. by apply parse_codes_valid, code_clean in Hc.
  - intros [Hc|Hc]%elem_of_union; [by eapply read_clean|].
    by apply parse_codes_valid, code_clean in Hc.
Qed.

(** C6 as stated fails: a line of the file that is no code is written
    back with the new code, so not every line written is a StockCode. *)
Lemma line_that_is_no_code_is_written_back :
  written (reconcile (read_stock_list (Some (Py.lit "abc
")))
                     (parse_messages None 1000
                        [text_message 5 42 900 (Py.lit "600970")]))
  = Some (Py.lit "600970
abc
") ∧
  ¬ every_line_is_a_code (Py.lit "600970
abc
").
Proof.
  split; [vm_compute; reflexivity|].
  unfold every_line_is_a_code.
  replace (file_lines (Py.lit "600970
abc
")) with [Py.lit "600970
"; Py.lit "abc
"] by reflexivity.
  intros Hall. apply Forall_cons in Hall as [_ Hall].
  apply Forall_cons in Hall as [[Hlen _] _].
  vm_compute in Hlen. discriminate Hlen.
Qed.

(** C6, amended.  Whenever step 4 writes the file, its content is one
    line per entry of the final list and nothing else: iterating over
    the file gives these lines back, every entry is non-empty, stripped
    and without a line break, no line occurs twice, and the lines are in
    strictly ascending order.  Every line is a six-digit code when a
    clear was requested, or when every entry read from the file before
    was one. *)
Theorem written_file_invariant (file : option pystr) admin now
    (batch : list Update) (content : pystr) :
  let st := parse_messages admin now batch in
  let out := reconcile (read_stock_list file) st in
  written out = Some content →
  let lines := sorted_set (existing_stocks out) in
  content = concat ((fun stock => stock ++ [0xa]) <$> lines) ∧
  file_lines content = (fun stock => stock ++ [0xa]) <$> lines ∧
  Forall clean lines ∧
  NoDup lines ∧
  StronglySorted str_lt lines ∧
  (∀ c, c ∈ lines ↔ c ∈ existing_stocks out) ∧
  (should_clear st = true ∨ (∀ c, c ∈ read_stock_list file → is_code c) →
   Forall is_code lines).
Proof.
  intros st out Hw lines.
  apply written_is_final in Hw. fold out in Hw. subst content.
  assert (Hclean : ∀ c, c ∈ existing_stocks out → clean c).
  { intros c. apply final_clean. }
  split_and!.
  - done.
  - by apply file_lines_written.
  - apply Forall_forall. intros c Hc. by apply Hclean, elem_of_sorted_set.
  - apply NoDup_sorted_set.
  - apply sorted_set_ascending.
  - intros c. apply elem_of_sorted_set.
  - intros Hcase. apply Forall_forall. intros c Hc%elem_of_sorted_set.
    destruct Hcase as [Hclear|Hfile].
    + unfold out in Hc.
      rewrite (proj1 (reconcile_clear _ _ Hclear)) in Hc.
      by apply parse_codes_valid in Hc.
    + eapply final_codes; [exact Hfile| |exact Hc].
      intros c'. apply parse_codes_valid.
Qed.

Lemma written_file_invariant_witness :
  written (reconcile (read_stock_list (Some (Py.lit "601088
abc
")))
                     (parse_messages None 1000
                        [text_message 5 42 900 (Py.lit "600970")]))
  = Some (Py.lit "600970
601088
abc
") ∧
  file_lines (Py.lit "600970
601088
abc
")
  = (fun stock => stock ++ [0xa])
    <$> sorted_set (existing_stocks
          (reconcile (read_stock_list (Some (Py.lit "601088
abc
")))
                     (parse_messages None 1000
                        [text_message 5 42 900 (Py.lit "600970")]))).
Proof.
  assert (Hw : written (reconcile (read_stock_list (Some (Py.lit "601088
abc
")))
                     (parse_messages None 1000
                        [text_message 5 42 900 (Py.lit "600970")]))
  = Some (Py.lit "600970
601088
abc
")) by (vm_compute; reflexivity).
  split; [exact Hw|].
  exact (proj1 (proj2 (written_file_invariant
           (Some (Py.lit "601088
abc
")) None 1000 [text_message 5 42 900 (Py.lit "600970")] _ Hw))).
Defined.

End OnDiskInvariant.

Section Keywords.

Lemma ignorecase_eqb_lower p c :
  no_capital p →
  Py.ignorecase_eqb p (ascii_lower c) = Py.ignorecase_eqb p c.
Proof.
  unfold no_capital, Py.ignorecase_eqb, Py.ignorecase_class, ascii_lower.
  intros Hp.
  repeat match goal with
  | |- context [N.leb ?a ?b] => destruct (N.leb_spec a b)
  end; cbn [andb];
  repeat match goal with
  | |- context [N.eqb ?a ?b] => destruct (N.eqb_spec a b)
  end; cbn [existsb];
  repeat match goal with
  | |- context [N.eqb ?a ?b] => destruct (N.eqb_spec a b)
  end; cbn [orb]; try reflexivity; try lia.
Qed.

Lemma ignorecase_starts_with_lower (p t : pystr) :
  Forall no_capital p →
  Py.ignorecase_starts_with p (ascii_lower <$> t) = Py.ignorecase_starts_with p t.
Proof.
  intros Hp. revert t. induction Hp as [|x p Hx Hp IH]; intros t; [done|].
  destruct t as [|y t]; [done|]. cbn.
  by rewrite ignorecase_eqb_lower, IH.
Qed.

Lemma ignorecase_contains_lower (p t : pystr) :
  Forall no_capital p →
  Py.ignorecase_contains p (ascii_lower <$> t) = Py.ignorecase_contains p t.
Proof.
  intros Hp. induction t as [|y t IH].
  - cbn. by destruct p.
  - cbn [Py.ignorecase_contains]. rewrite <- IH.
    rewrite <- (ignorecase_starts_with_lower p (y :: t)) by done. done.
Qed.

Lemma search_any_lower (kws : list pystr) (t : pystr) :
  Forall (Forall no_capital) kws →
  Py.search_any kws (ascii_lower <$> t) = Py.search_any kws t.
Proof.
  intros Hk. unfold Py.search_any. induction Hk as [|p kws Hp Hk IH]; [done|].
  cbn [existsb]. by rewrite ignorecase_contains_lower, IH.
Qed.

Lemma keywords_no_capital :
  Forall (Forall no_capital) view_keywords ∧
  Forall (Forall no_capital) clear_keywords.
Proof.
  split; repeat constructor; unfold no_capital; cbn; lia.
Qed.

(** X10.  The keyword search does not see the case of ASCII letters:
    two texts that differ only there set the same flags. *)
Theorem keywords_ignore_ascii_case (t t' : pystr) :
  ascii_lower <$> t = ascii_lower <$> t' →
  Py.search_any view_keywords t = Py.search_any view_keywords t' ∧
  Py.search_any clear_keywords t = Py.search_any clear_keywords t'.
Proof.
  intros Heq. destruct keywords_no_capital as [Hv Hc]. split.
  - by rewrite <- (search_any_lower _ t), <- (search_any_lower _ t'), Heq.
  - by rewrite <- (search_any_lower _ t), <- (search_any_lower _ t'), Heq.
Qed.

Lemma keywords_ignore_ascii_case_witness :
  Py.search_any clear_keywords (Py.lit "Clear ALL") = true ∧
  Py.search_any clear_keywords (Py.lit "cLEAR all") = true.
Proof.
  destruct (keywords_ignore_ascii_case (Py.lit "Clear ALL") (Py.lit "cLEAR all")
              eq_refl) as [_ <-].
  split; reflexivity.
Defined.

Lemma ignorecase_starts_with_app (p t post : pystr) :
  Py.ignorecase_starts_with p t = true →
  Py.ignorecase_starts_with p (t ++ post) = true.
Proof.
  revert t. induction p as [|x p IH]; intros t; [done|].
  destruct t as [|y t]; [done|]. cbn.
  intros [-> H]%andb_true_iff. by rewrite IH.
Qed.

Lemma ignorecase_contains_app_r (p t post : pystr) :
  Py.ignorecase_contains p t = true →
  Py.ignorecase_contains p (t ++ post) = true.
Proof.
  induction t as [|y t IH].
  - cbn. rewrite orb_false_r. intros H.
    destruct p; [|done]. by destruct post.
  - cbn [Py.ignorecase_contains app]. intros [H|H]%orb_true_iff.
    + change (y :: t ++ post) with ((y :: t) ++ post).
      by rewrite ignorecase_starts_with_app.
    + rewrite IH by done. by rewrite orb_true_r.
Qed.

Lemma ignorecase_contains_app_l (p pre t : pystr) :
  Py.ignorecase_contains p t = true →
  Py.ignorecase_contains p (pre ++ t) = true.
Proof.
  intros H. induction pre as [|y pre IH]; [done|].
  cbn [app Py.ignorecase_contains]. rewrite IH. by rewrite orb_true_r.
Qed.

(** X11.  A keyword is found wherever it stands: a text that triggers a
    command still triggers it with anything written before and after
    it. *)
Theorem keyword_is_found_inside_any_text (kws : list pystr) (pre t post : pystr) :
  Py.search_any kws t = true →
  Py.search_any kws (pre ++ t ++ post) = true.
Proof.
  unfold Py.search_any. rewrite !existsb_exists.
  intros (p & Hp & H). exists p. split; [done|].
  by apply ignorecase_contains_app_l, ignorecase_contains_app_r.
Qed.

Lemma keyword_is_found_inside_any_text_witness :
  Py.search_any clear_keywords (Py.lit "clear") = true ∧
  Py.search_any clear_keywords (Py.lit "un" ++ Py.lit "clear" ++ Py.lit "ly") = true.
Proof.
  split; [reflexivity|].
  apply (keyword_is_found_inside_any_text clear_keywords
           (Py.lit "un") (Py.lit "clear") (Py.lit "ly")).
  reflexivity.
Defined.

End Keywords.


Section Order.

Implicit Types (st : LoopState) (u : Update) (admin : option pystr) (now : Q).

Lemma loop_state_eq st st' :
  new_stocks st = new_stocks st' →
  latest_update_id st = latest_update_id st' →
  should_clear st = should_clear st' →
  should_view st = should_view st' →
  st = st'.
Proof. destruct st, st'. cbn. by intros -> -> -> ->. Qed.

Lemma max_update_id_perm (l l' : list Update) :
  l ≡ₚ l' → max_update_id l = max_update_id l'.
Proof.
  induction 1 as [|u l l' _ IH|u v l|l l' l'' _ IH1 _ IH2]; cbn [max_update_id foldr].
  - done.
  - fold (max_update_id l) (max_update_id l'). by rewrite IH.
  - lia.
  - congruence.
Qed.

Lemma bool_eq_iff (a b : bool) : (a = true ↔ b = true) → a = b.
Proof. destruct a, b; intros [H1 H2]; try done; [by rewrite H1|by rewrite H2]. Qed.

(** X20.  The state the loop ends in (codes, both flags, largest
    sequence number) does not depend on the order of the messages in
    the batch. *)
Theorem message_order_does_not_matter admin now (batch batch' : list Update) :
  batch ≡ₚ batch' →
  parse_messages admin now batch' = parse_messages admin now batch.
Proof.
  intros Hp. apply loop_state_eq.
  - apply set_eq. intros c. rewrite !elem_of_parse_codes.
    split; intros (u & Hu & H); exists u; (split; [|done]).
    + by rewrite Hp.
    + by rewrite <- Hp.
  - unfold parse_messages. rewrite !fold_latest by done.
    by rewrite (max_update_id_perm _ _ Hp).
  - apply bool_eq_iff. unfold parse_messages. rewrite !fold_clear.
    split; (intros [?|(u & Hu & H)]; [by left|right; exists u; split; [|done]]).
    + by rewrite Hp.
    + by rewrite <- Hp.
  - apply bool_eq_iff. unfold parse_messages. rewrite !fold_view.
    split; (intros [?|(u & Hu & H)]; [by left|right; exists u; split; [|done]]).
    + by rewrite Hp.
    + by rewrite <- Hp.
Qed.

Lemma message_order_does_not_matter_witness :
  parse_messages (Some (Py.lit "42")) 1000
    [text_message 6 42 900 (Py.lit "clear"); text_message 5 42 900 (Py.lit "600970")]
  = parse_messages (Some (Py.lit "42")) 1000
    [text_message 5 42 900 (Py.lit "600970"); text_message 6 42 900 (Py.lit "clear")].
Proof.
  apply message_order_does_not_matter. apply perm_swap.
Defined.

End Order.

(** ** The hypotheses of the theorems above, met on examples *)

Lemma acknowledgment_covers_the_batch_witness :
  env_set (TG_BOT_TOKEN (world_of None (Py.lit "600970"))) = true ∧
  offset (main (world_of None (Py.lit "600970"))) = Some 6%Z.
Proof.
  split; [reflexivity|].
  destruct (acknowledgment_covers_the_batch
              (world_of None (Py.lit "600970")) eq_refl) as [H _].
  rewrite H. reflexivity.
Defined.

Lemma collected_codes_are_six_digits_witness :
  Py.lit "600970"
    ∈ new_stocks (parse_messages None 1000
                    [text_message 5 42 900 (Py.lit "buy 600970")]) ∧
  length (Py.lit "600970") = 6%nat.
Proof.
  assert (Hin : Py.lit "600970"
    ∈ new_stocks (parse_messages None 1000
                    [text_message 5 42 900 (Py.lit "buy 600970")])).
  { apply elem_of_parse_codes.
    exists (text_message 5 42 900 (Py.lit "buy 600970")).
    split_and!; [left|split; reflexivity|left]. }
  split; [exact Hin|].
  exact (proj1 (collected_codes_are_six_digits _ _ _ _ Hin)).
Defined.

Lemma file_changes_only_on_accepted_request_witness :
  stock_list_after (main (world_of None (Py.lit "600970")))
    ≠ stock_list_txt (world_of None (Py.lit "600970")) ∧
  env_set (TG_BOT_TOKEN (world_of None (Py.lit "600970"))) = true.
Proof.
  assert (Hne : stock_list_after (main (world_of None (Py.lit "600970")))
                ≠ stock_list_txt (world_of None (Py.lit "600970"))).
  { intros Heq. vm_compute in Heq. discriminate Heq. }
  split; [exact Hne|].
  exact (proj1 (file_changes_only_on_accepted_request _ Hne)).
Defined.

Lemma rerun_leaves_the_same_file_witness :
  stale 1200 (text_message 5 42 900 (Py.lit "600970"))
  = stale (clock (world_of None (Py.lit "600970")))
          (text_message 5 42 900 (Py.lit "600970")) ∧
  stock_list_after (main (rerun 1200 (world_of None (Py.lit "600970"))))
  = stock_list_after (main (world_of None (Py.lit "600970"))).
Proof.
  split; [reflexivity|].
  apply rerun_leaves_the_same_file.
  intros u Hu. apply list_elem_of_singleton in Hu. rewrite Hu. reflexivity.
Defined.

Lemma listing_shows_the_file_after_the_run_witness :
  Listing [Py.lit "600970"]
    ∈ replies (main (world_of None (Py.lit "list 600970"))) ∧
  [Py.lit "600970"]
  = sorted_set (read_stock_list
      (stock_list_after (main (world_of None (Py.lit "list 600970"))))).
Proof.
  assert (Hin : Listing [Py.lit "600970"]
    ∈ replies (main (world_of None (Py.lit "list 600970")))).
  { change (Listing [Py.lit "600970"]
      ∈ [Changed false [Py.lit "600970"]; Listing [Py.lit "600970"]]).
    right. left. }
  split; [exact Hin|].
  exact (proj1 (listing_shows_the_file_after_the_run _ _ Hin)).
Defined.

Lemma lines_read_are_stripped_and_not_empty_witness :
  Py.lit "600970" ∈ read_stock_list (Some (Py.lit " 600970
")) ∧
  Py.strip (Py.lit "600970") = Py.lit "600970".
Proof.
  assert (Hin : Py.lit "600970" ∈ read_stock_list (Some (Py.lit " 600970
"))).
  { apply elem_of_list_to_set. left. }
  split; [exact Hin|].
  exact (proj1 (proj2 (lines_read_are_stripped_and_not_empty _ _ Hin))).
Defined.

Lemma written_list_reads_back_witness :
  read_stock_list (Some (write_stock_list {[ Py.lit "600970" ]}))
  = {[ Py.lit "600970" ]}.
Proof.
  apply written_list_reads_back.
  intros c Hc. apply elem_of_singleton in Hc as ->.
  split_and!; [discriminate|reflexivity| |];
    intros Hin; apply list_elem_of_In in Hin; vm_compute in Hin;
    intuition discriminate.
Defined.

Lemma codes_only_file_stays_codes_only_witness :
  Py.lit "600970"
    ∈ read_stock_list (stock_list_after (main (world_of None (Py.lit "600970")))) ∧
  is_code (Py.lit "600970").
Proof.
  assert (Hold : ∀ c, c ∈ read_stock_list (stock_list_txt (world_of None (Py.lit "600970")))
                      → is_code c).
  { intros c Hc. apply elem_of_empty in Hc. destruct Hc. }
  assert (Hfile : stock_list_after (main (world_of None (Py.lit "600970")))
                  = Some (Py.lit "600970
")) by (vm_compute; reflexivity).
  assert (Hin : Py.lit "600970"
    ∈ read_stock_list (stock_list_after (main (world_of None (Py.lit "600970"))))).
  { rewrite Hfile. apply elem_of_list_to_set. left. }
  split; [exact Hin|].
  exact (codes_only_file_stays_codes_only
           (world_of None (Py.lit "600970")) (Py.lit "600970") Hold Hin).
Defined.
(* ===================================================================== *)
(** * Properties of sheet_manager.py *)
(* ===================================================================== *)

Import SheetManager.

Section Sheet.

Variable float_str : spec_float → pystr.
Variable today : pystr.

Lemma last_cons_default {A} (x : A) (l : list A) :
  last (x :: l) = Some (default x (last l)).
Proof.
  revert x. induction l as [|y l IH]; intros x; [done|].
  change (last (x :: y :: l)) with (last (y :: l)). rewrite IH.
  by destruct l.
Qed.

Lemma fold_assign (rows : list record) (m : gmap pystr Stock) (c : pystr) :
  fold_left (assign float_str today) rows m !! c =
    match last (filter (fun e => e.1 = c) (assignments float_str today rows)) with
    | Some e => Some e.2
    | None => m !! c
    end.
Proof.
  revert m. induction rows as [|row rows IH]; intros m; [done|].
  cbn [fold_left]. rewrite IH. unfold assignments, assign. cbn [omap list_omap].
  destruct (row_entry float_str today row) as [[code entry]|]; [|done].
  rewrite filter_cons. cbn [fst].
  destruct (decide (code = c)) as [->|Hne].
  - rewrite last_cons_default.
    destruct (last _); [done|]. cbn. by rewrite lookup_insert_eq.
  - destruct (last _); [done|]. by rewrite lookup_insert_ne.
Qed.

Lemma filter_none {A} (P : A → Prop) `{!∀ x, Decision (P x)} (l : list A) :
  Forall (fun x => ¬ P x) l → filter P l = [].
Proof.
  induction 1 as [|x l Hx _ IH]; [done|]. by rewrite filter_cons_False.
Qed.

Lemma code_column_key k (row : record) :
  code_column k row → code_key row = Some k.
Proof.
  intros (before & v & after & -> & Hb & Hk). unfold code_key.
  rewrite fmap_app, fmap_cons, filter_app. cbn [fst].
  rewrite filter_cons_True by done.
  rewrite filter_none; [done|].
  apply Forall_fmap. eapply Forall_impl; [exact Hb|].
  intros [k' v'] Hf. cbn in *. congruence.
Qed.

Lemma code_column_nonempty k (row : record) : code_column k row → k ≠ [].
Proof. intros (_ & _ & _ & _ & _ & Hk) ->. vm_compute in Hk. discriminate Hk. Qed.

(** What the loop of [get_all_stocks] does with a row whose code column
    is [k]: nothing when the code is blank, else one assignment. *)
Lemma row_entry_column k (row : record) :
  code_column k row →
  row_entry float_str today row =
    match carried_code float_str k row with
    | [] => None
    | c => Some (c, fields_of_row float_str today row)
    end.
Proof.
  intros Hk. unfold row_entry. rewrite (code_column_key k row Hk).
  pose proof (code_column_nonempty k row Hk) as Hne.
  destruct k as [|k0 k']; [done|]. unfold carried_code.
  destruct (Py.strip (str float_str (get (k0 :: k') PNone row))) as [|x c];
    [done|].
  do 2 f_equal. unfold fields_of_row, field_text, str_or.
  f_equal; by destruct (Py.strip _).
Qed.

Lemma assignments_of_code k (rows : list record) (c : pystr) :
  Forall (code_column k) rows → c ≠ [] →
  filter (fun e => e.1 = c) (assignments float_str today rows)
  = (fun row => (c, fields_of_row float_str today row))
    <$> filter (fun row => carried_code float_str k row = c) rows.
Proof.
  intros Hrows Hc. induction Hrows as [|row rows Hrow _ IH]; [done|].
  unfold assignments in *. cbn [omap list_omap].
  rewrite (row_entry_column k row Hrow).
  destruct (carried_code float_str k row) as [|x s] eqn:Hcc.
  - rewrite (filter_cons_False _ row) by (rewrite Hcc; congruence). apply IH.
  - rewrite filter_cons. cbn [fst].
    rewrite (filter_cons _ row), Hcc.
    destruct (decide (x :: s = c)) as [<-|Hne]; [|apply IH].
    rewrite fmap_cons. f_equal. apply IH.
Qed.

Lemma assignments_of_blank k (rows : list record) (c : pystr) :
  Forall (code_column k) rows → c = [] →
  filter (fun e => e.1 = c) (assignments float_str today rows) = [].
Proof.
  intros Hrows Hc. induction Hrows as [|row rows Hrow _ IH]; [done|].
  unfold assignments in *. cbn [omap list_omap].
  rewrite (row_entry_column k row Hrow).
  destruct (carried_code float_str k row) as [|x s]; [apply IH|].
  rewrite filter_cons_False by (cbn; congruence). apply IH.
Qed.

(** C9.  For the rows of a sheet whose code column is [k], the dictionary
    of [get_all_stocks] holds, under a code, the BuyDate, Qty and Price
    (stripped, blank ones replaced by today's date, "0" and "0.0") of
    the last row, in sheet order, whose stripped code is this code; the
    rows before it with the same code leave no trace, a blank code gives
    no entry, and no code has two entries. *)
Theorem get_all_stocks_last_row_wins (k : pystr) (rows : list record) :
  Forall (code_column k) rows →
  (∀ c, c ≠ [] →
     get_all_stocks float_str today (Some rows) !! c =
       fields_of_row float_str today
       <$> last (filter (fun row => carried_code float_str k row = c) rows)) ∧
  get_all_stocks float_str today (Some rows) !! [] = None ∧
  NoDup ((map_to_list (get_all_stocks float_str today (Some rows))).*1).
Proof.
  intros Hrows. split_and!.
  - intros c Hc. unfold get_all_stocks.
    rewrite fold_assign, lookup_empty, (assignments_of_code k) by done.
    rewrite fmap_last. by destruct (last _).
  - unfold get_all_stocks.
    by rewrite fold_assign, lookup_empty, (assignments_of_blank k).
  - apply NoDup_fst_map_to_list.
Qed.

(** ** Cells after [update_cell] *)

Lemma set_cell_eq i v (cells : list pyval) : set_cell i v cells !! i = Some v.
Proof.
  unfold set_cell. apply list_lookup_insert_eq.
  rewrite length_app, length_replicate. lia.
Qed.

Lemma set_cell_ne i j v w (cells : list pyval) :
  i ≠ j → cells !! j = Some w → set_cell i v cells !! j = Some w.
Proof.
  intros Hne Hj. unfold set_cell. rewrite list_lookup_insert_ne by done.
  by apply lookup_app_l_Some.
Qed.

Lemma cell_update_eq (sheet : grid) row col v :
  (1 ≤ row)%nat → cell (update_cell sheet row col v) row col = Some v.
Proof.
  intros Hr. unfold cell, update_cell.
  destruct (lookup_lt_is_Some_2 (sheet ++ replicate (row - length sheet)%nat [])
              (row - 1)%nat) as [cells Hcells].
  { rewrite length_app, length_replicate. lia. }
  rewrite list_lookup_alter_eq, Hcells. cbn. apply set_cell_eq.
Qed.

Lemma cell_update_ne (sheet : grid) row col col' v w :
  (col - 1 ≠ col' - 1)%nat →
  cell sheet row col' = Some w →
  cell (update_cell sheet row col v) row col' = Some w.
Proof.
  intros Hne. unfold cell, update_cell.
  destruct (sheet !! (row - 1)%nat) as [cells|] eqn:Hrow; [|done]. cbn.
  intros Hw. rewrite list_lookup_alter_eq.
  rewrite (lookup_app_l_Some _ _ _ _ Hrow). cbn. by apply set_cell_ne.
Qed.

Lemma find_from_row query r0 (rows : grid) row col :
  find_from float_str query r0 rows = Some (row, col) → (r0 ≤ row)%nat.
Proof.
  revert r0. induction rows as [|cells rows IH]; intros r0; [done|]. cbn.
  destruct (find_in_row _ _ _ _).
  - intros [= <- <-]. lia.
  - intros H%IH. lia.
Qed.

(** C10.  [add_or_update_stock] stores, in the columns 2 to 4 of the row
    it found or as the rest of the row it appends, [date or today],
    [qty or 0] and [price or 0.0]: the default takes the place of every
    argument that is false as a truth value ([None], [0], [0.0], the
    empty string), and a true one, the string "0" included, is stored as
    given. *)
Theorem falsy_arguments_get_defaults (sheet : grid) (code date qty price : pyval) :
  let stored := [por date (PStr today); por qty (PInt 0); por price (PFloat float_zero)] in
  let result := add_or_update_stock float_str today sheet code date qty price in
  match find float_str sheet (str float_str code) with
  | None => result = (Py.lit "Added", sheet ++ [PStr (str float_str code) :: stored])
  | Some (row, _) =>
      result.1 = Py.lit "Updated" ∧
      ∀ j v, stored !! j = Some v → cell result.2 row (2 + j) = Some v
  end ∧
  (∀ v d, truthy v = false → por v d = d) ∧
  (∀ v d, truthy v = true → por v d = v) ∧
  truthy PNone = false ∧ truthy (PInt 0) = false ∧
  truthy (PFloat float_zero) = false ∧ truthy (PStr []) = false ∧
  truthy (PStr (Py.lit "0")) = true.
Proof.
  intros stored result. split_and!; try done.
  - unfold result, add_or_update_stock.
    destruct (find float_str sheet (str float_str code)) as [[row col]|] eqn:Hf; [|done].
    split; [done|]. cbn [snd].
    apply find_from_row in Hf.
    intros j v Hj. destruct j as [|[|[|j]]]; cbn in Hj; simplify_eq.
    + do 2 (apply cell_update_ne; [cbn; lia|]). by apply cell_update_eq.
    + apply cell_update_ne; [cbn; lia|]. by apply cell_update_eq.
    + by apply cell_update_eq.
  - intros v d Hv. unfold por. by rewrite Hv.
  - intros v d Hv. unfold por. by rewrite Hv.
Qed.

(** C5 fails on the code.  [find] searches every cell: on a sheet whose
    only holding is 000001 with the quantity "600970", the call for the
    code 600970 finds the cell in row 2, column 3, overwrites the
    holding of 000001 and answers "Updated"; no row is appended. *)
Theorem update_hits_row_of_another_code :
  find float_str one_holding (Py.lit "600970") = Some (2, 3)%nat ∧
  add_or_update_stock float_str today one_holding
      (PStr (Py.lit "600970")) PNone (PStr (Py.lit "100")) PNone
  = (Py.lit "Updated",
     [ header;
       [PStr (Py.lit "000001"); PStr today; PStr (Py.lit "100"); PFloat float_zero] ]).
Proof. split; reflexivity. Qed.

(** C8 fails on the code.  On the same sheet, where no row has the key
    600970, [remove_stock] answers [True] and deletes the holding of
    000001. *)
Theorem remove_deletes_row_of_another_code :
  remove_stock float_str one_holding (PStr (Py.lit "600970")) = (true, [header]) ∧
  Forall (fun cells => head cells ≠ Some (PStr (Py.lit "600970"))) one_holding.
Proof.
  split; [reflexivity|].
  repeat constructor; by intros [=].
Qed.

End Sheet.

Lemma get_all_stocks_last_row_wins_witness :
  Forall (code_column (Py.lit "Code")) two_records ∧
  carried_code float_text (Py.lit "Code") <$> two_records
  = [Py.lit "600970"; Py.lit "600970"] ∧
  get_all_stocks float_text (Py.lit "2026-11-03") (Some two_records)
    !! Py.lit "600970"
  = Some {| date := Py.lit "2026-11-03"; qty := Py.lit "200";
            price := Py.lit "9.5" |}.
Proof.
  assert (Hcol : Forall (code_column (Py.lit "Code")) two_records).
  { repeat constructor; eexists [], _, _; (split; [reflexivity|]);
      (split; [constructor|reflexivity]). }
  split; [exact Hcol|]. split; [reflexivity|].
  destruct (get_all_stocks_last_row_wins float_text (Py.lit "2026-11-03")
              (Py.lit "Code") two_records Hcol) as [Hlast _].
  assert (Hne : Py.lit "600970" ≠ []) by discriminate.
  rewrite (Hlast (Py.lit "600970") Hne). vm_compute. reflexivity.
Defined.
Section KeyedStore.

Variable float_str : spec_float → pystr.
Variable today : pystr.

Implicit Types (sheet : grid) (q : pystr) (cells : list pyval).

Lemma find_in_row_none q col cells :
  Forall (fun v => str float_str v ≠ q) cells →
  find_in_row float_str q col cells = None.
Proof.
  intros H. revert col. induction H as [|v cells Hv H IH]; intros col; [done|].
  cbn. unfold Py.str_eqb. rewrite bool_decide_eq_false_2 by done. apply IH.
Qed.

Lemma find_in_row_key_only q cells :
  Forall (fun v => str float_str v ≠ q) (tail cells) →
  find_in_row float_str q 1 cells = if has_key float_str q cells then Some 1%nat else None.
Proof.
  destruct cells as [|v cells]; [done|]. cbn. intros H.
  destruct (Py.str_eqb _ _); [done|]. by apply find_in_row_none.
Qed.

Lemma find_from_key_only q r0 sheet :
  key_only float_str q sheet →
  find_from float_str q r0 sheet
  = (fun i => (S i, 1%nat)) <$> key_row_from float_str q (r0 - 1) sheet ∨ r0 = 0%nat.
Proof.
  intros H. destruct r0 as [|r0]; [by right|left].
  revert r0. induction H as [|cells sheet Hc H IH]; intros r0; [done|].
  cbn [find_from key_row_from]. rewrite find_in_row_key_only by done.
  replace (S r0 - 1)%nat with r0 by lia.
  destruct (has_key float_str q cells); [done|].
  rewrite IH. by replace (S (S r0) - 1)%nat with (S r0) by lia.
Qed.

Lemma find_key_only q sheet :
  key_only float_str q sheet →
  find float_str sheet q = (fun i => (S i, 1%nat)) <$> key_row float_str q sheet.
Proof.
  intros H. unfold find, key_row.
  by destruct (find_from_key_only q 1 sheet H) as [->|?].
Qed.

Lemma key_row_from_spec q i0 sheet i :
  key_row_from float_str q i0 sheet = Some i →
  (i0 ≤ i)%nat ∧
  ∃ cells, sheet !! (i - i0)%nat = Some cells ∧ has_key float_str q cells = true.
Proof.
  revert i0. induction sheet as [|cells sheet IH]; intros i0; [done|]. cbn.
  destruct (has_key float_str q cells) eqn:Hk.
  - intros [= <-]. split; [lia|]. exists cells. by rewrite Nat.sub_diag.
  - intros (Hle & cells' & Hl & Hk')%IH. split; [lia|]. exists cells'.
    split; [|done]. replace (i - i0)%nat with (S (i - S i0)) by lia. done.
Qed.

Lemma set_cells_234 (k d q p : pyval) (rest : list pyval) :
  set_cell 3 p (set_cell 2 q (set_cell 1 d (k :: rest)))
  = overwritten d q p (k :: rest).
Proof.
  destruct rest as [|a [|b [|c rest]]]; try done.
  unfold set_cell, overwritten. cbn. by rewrite !app_nil_r.
Qed.

Lemma update_cell_in_range sheet row col v :
  (row ≤ length sheet)%nat →
  update_cell sheet row col v = alter (set_cell (col - 1) v) (row - 1)%nat sheet.
Proof.
  intros H. unfold update_cell.
  replace (row - length sheet)%nat with 0%nat by lia. by rewrite app_nil_r.
Qed.

Lemma update_row sheet i k rest (d q p : pyval) :
  sheet !! i = Some (k :: rest) →
  update_cell (update_cell (update_cell sheet (S i) 2 d) (S i) 3 q) (S i) 4 p
  = <[i := overwritten d q p (k :: rest)]> sheet.
Proof.
  intros Hi. apply lookup_lt_Some in Hi as Hlt.
  rewrite (update_cell_in_range sheet) by lia.
  rewrite (update_cell_in_range (alter _ _ sheet)) by (rewrite length_alter; lia).
  rewrite (update_cell_in_range (alter _ _ (alter _ _ sheet)))
    by (rewrite !length_alter; lia).
  replace (S i - 1)%nat with i by lia. rewrite !list_alter_alter_eq.
  apply list_eq. intros j. destruct (decide (i = j)) as [->|Hne].
  - rewrite list_lookup_alter_eq, list_lookup_insert_eq, Hi by done.
    cbn [fmap option_fmap option_map compose Nat.sub].
    f_equal. apply set_cells_234.
  - by rewrite list_lookup_alter_ne, list_lookup_insert_ne.
Qed.

(** X12.  On a sheet where the text of the code stands in no cell
    outside the first column, [add_or_update_stock] goes by the key: if
    some row has the code as its first cell, the first such row gets its
    columns 2 to 4 overwritten, every other row and the number of rows
    stay, and the answer is "Updated"; otherwise one row is appended and
    the answer is "Added". *)
Theorem add_or_update_goes_by_key_when_codes_are_keys_only
    sheet (code date qty price : pyval) :
  key_only float_str (str float_str code) sheet →
  let d := por date (PStr today) in
  let q := por qty (PInt 0) in
  let p := por price (PFloat float_zero) in
  match key_row float_str (str float_str code) sheet with
  | Some i =>
      ∃ cells, sheet !! i = Some cells ∧
        add_or_update_stock float_str today sheet code date qty price
        = (Py.lit "Updated", <[i := overwritten d q p cells]> sheet)
  | None =>
      add_or_update_stock float_str today sheet code date qty price
      = (Py.lit "Added", sheet ++ [[PStr (str float_str code); d; q; p]])
  end.
Proof.
  intros Hk d q p. unfold add_or_update_stock. rewrite find_key_only by done.
  destruct (key_row float_str (str float_str code) sheet) as [i|] eqn:Hrow; [|done].
  apply key_row_from_spec in Hrow as (_ & cells & Hi & Hhas).
  rewrite Nat.sub_0_r in Hi. exists cells. split; [done|]. cbn.
  destruct cells as [|k rest]; [done|].
  by rewrite (update_row sheet i k rest).
Qed.

(** X13.  On such a sheet [remove_stock] deletes the first row whose
    first cell is the code and answers [True], or answers [False] and
    leaves the sheet as it is when no row has this key. *)
Theorem remove_goes_by_key_when_codes_are_keys_only sheet (code : pyval) :
  key_only float_str (str float_str code) sheet →
  remove_stock float_str sheet code =
    match key_row float_str (str float_str code) sheet with
    | Some i => (true, delete i sheet)
    | None => (false, sheet)
    end.
Proof.
  intros Hk. unfold remove_stock. rewrite find_key_only by done.
  destruct (key_row float_str (str float_str code) sheet) as [i|]; [|done].
  cbn [fmap option_fmap option_map]. unfold delete_rows.
  by replace (S i - 1)%nat with i by lia.
Qed.

End KeyedStore.

Section StoreCalls.

Variable float_str : spec_float → pystr.
Variable today : pystr.

Implicit Types (sheet : grid) (q : pystr) (cells : list pyval).

Lemma find_from_app q r0 (a b : grid) :
  find_from float_str q r0 (a ++ b) =
    match find_from float_str q r0 a with
    | Some hit => Some hit
    | None => find_from float_str q (r0 + length a) b
    end.
Proof.
  revert r0. induction a as [|cells a IH]; intros r0.
  - cbn. by rewrite Nat.add_0_r.
  - cbn. destruct (find_in_row _ _ _ _); [done|].
    rewrite IH. cbn. by rewrite Nat.add_succ_r.
Qed.

Lemma find_from_hit q r0 (rows : grid) row col :
  find_from float_str q r0 rows = Some (row, col) →
  (r0 ≤ row)%nat ∧
  ∃ k rest, rows !! (row - r0)%nat = Some (k :: rest).
Proof.
  revert r0. induction rows as [|cells rows IH]; intros r0; [done|]. cbn.
  destruct (find_in_row float_str q 1 cells) as [c|] eqn:Hc.
  - intros [= <- <-]. split; [lia|]. rewrite Nat.sub_diag.
    destruct cells as [|k rest]; [done|]. by exists k, rest.
  - intros (Hle & k & rest & Hl)%IH. split; [lia|]. exists k, rest.
    by replace (row - r0)%nat with (S (row - S r0)) by lia.
Qed.

Lemma find_appended sheet q (rest : list pyval) :
  find float_str sheet q = None →
  find float_str (sheet ++ [PStr q :: rest]) q = Some (S (length sheet), 1%nat).
Proof.
  unfold find. intros Hn. rewrite find_from_app, Hn. cbn.
  unfold Py.str_eqb. by rewrite bool_decide_eq_true_2.
Qed.

Lemma add_new sheet (code d q p : pyval) :
  find float_str sheet (str float_str code) = None →
  add_or_update_stock float_str today sheet code d q p =
    (Py.lit "Added",
     sheet ++ [[PStr (str float_str code); por d (PStr today);
                por q (PInt 0); por p (PFloat float_zero)]]).
Proof. intros Hn. unfold add_or_update_stock. by rewrite Hn. Qed.

(** X14.  For a code that no cell of the sheet shows, the first call
    appends one row and answers "Added"; a second call for the same code
    answers "Updated" and leaves the sheet with that one row, now holding
    the values of the second call: no second row for the code. *)
Theorem second_call_updates_the_added_row sheet (code d1 q1 p1 d2 q2 p2 : pyval) :
  find float_str sheet (str float_str code) = None →
  let first := add_or_update_stock float_str today sheet code d1 q1 p1 in
  first.1 = Py.lit "Added" ∧
  length first.2 = S (length sheet) ∧
  add_or_update_stock float_str today first.2 code d2 q2 p2 =
    (Py.lit "Updated",
     sheet ++ [[PStr (str float_str code); por d2 (PStr today);
                por q2 (PInt 0); por p2 (PFloat float_zero)]]).
Proof.
  intros Hn first. subst first. rewrite add_new by done.
  cbn [fst snd]. split; [done|]. split.
  { rewrite length_app. cbn. lia. }
  unfold add_or_update_stock.
  rewrite find_appended by done.
  erewrite (update_row _ (length sheet)).
  2:{ rewrite lookup_app_r by lia. by rewrite Nat.sub_diag. }
  f_equal. unfold overwritten. cbn.
  rewrite insert_app_r_alt by lia. by rewrite Nat.sub_diag.
Qed.

(** X15.  For a code that no cell of the sheet shows, removing the code
    right after adding it answers [True] and gives the sheet back as it
    was. *)
Theorem remove_undoes_add sheet (code d q p : pyval) :
  find float_str sheet (str float_str code) = None →
  remove_stock float_str
    (add_or_update_stock float_str today sheet code d q p).2 code
  = (true, sheet).
Proof.
  intros Hn. rewrite add_new by done. cbn [snd].
  unfold remove_stock. rewrite find_appended by done.
  unfold delete_rows. f_equal.
  replace (S (length sheet) - 1)%nat with (length sheet) by lia.
  rewrite delete_middle. by rewrite app_nil_r.
Qed.

(** X16.  [add_or_update_stock] never removes a row and never changes
    the first cell of a row: the sheet keeps its rows or gains one, and
    every row that had a first cell still has the same one. *)
Theorem add_or_update_keeps_rows_and_keys sheet (code d q p : pyval) :
  let after := (add_or_update_stock float_str today sheet code d q p).2 in
  (length sheet ≤ length after ≤ S (length sheet))%nat ∧
  ∀ i k rest, sheet !! i = Some (k :: rest) →
    ∃ rest', after !! i = Some (k :: rest').
Proof.
  intros after. unfold after, add_or_update_stock.
  destruct (find float_str sheet (str float_str code)) as [[row col]|] eqn:Hf.
  - cbn [snd]. apply find_from_hit in Hf as (Hle & k0 & rest0 & Hrow).
    replace row with (S (row - 1)) by lia.
    rewrite (update_row _ _ _ _ _ _ _ Hrow).
    rewrite length_insert. split; [lia|].
    intros i k rest Hi. destruct (decide (i = (row - 1)%nat)) as [->|Hne].
    + rewrite list_lookup_insert_eq by by eapply lookup_lt_Some.
      rewrite Hrow in Hi. injection Hi as <- <-. unfold overwritten. cbn. eauto.
    + rewrite list_lookup_insert_ne by done. eauto.
  - cbn [snd]. unfold append_row. rewrite length_app. cbn. split; [lia|].
    intros i k rest Hi. exists rest. by apply lookup_app_l_Some.
Qed.

End StoreCalls.

Section Records.

Variable float_str : spec_float → pystr.
Variable today : pystr.

Lemma str_or_nonempty (s d : pystr) : d ≠ [] → str_or s d ≠ [].
Proof. by destruct s. Qed.

Lemma row_entry_filled (row : record) c e :
  row_entry float_str today row = Some (c, e) →
  c ≠ [] ∧ Py.strip c = c ∧ qty e ≠ [] ∧ price e ≠ [] ∧
  (today ≠ [] → date e ≠ []).
Proof.
  unfold row_entry. destruct (code_key row) as [[|k0 k]|]; try done.
  destruct (Py.strip (str float_str (get (k0 :: k) PNone row))) as [|x s] eqn:Hs;
    [done|].
  intros [= <- <-]. cbn [date qty price]. split_and!.
  - done.
  - rewrite <- Hs. apply strip_idemp.
  - by apply str_or_nonempty.
  - by apply str_or_nonempty.
  - apply str_or_nonempty.
Qed.

Lemma get_all_stocks_source (rows : list record) c e :
  get_all_stocks float_str today (Some rows) !! c = Some e →
  ∃ row, row ∈ rows ∧ row_entry float_str today row = Some (c, e).
Proof.
  unfold get_all_stocks. rewrite fold_assign, lookup_empty.
  destruct (last _) as [[c' e']|] eqn:Hl; [|done].
  intros [= <-]. apply last_Some_elem_of in Hl.
  apply list_elem_of_filter in Hl as [Hc Hl]. cbn in Hc. subst c'.
  unfold assignments in Hl. apply list_elem_of_omap in Hl as (row & Hrow & He).
  by exists row.
Qed.

(** X17.  In the dictionary of [get_all_stocks] every key is a
    non-empty, stripped string, and no entry has an empty quantity or
    price, nor an empty date as long as today's date is not empty. *)
Theorem stock_entries_are_filled (rows : list record) c e :
  get_all_stocks float_str today (Some rows) !! c = Some e →
  c ≠ [] ∧ Py.strip c = c ∧ qty e ≠ [] ∧ price e ≠ [] ∧
  (today ≠ [] → date e ≠ []).
Proof.
  intros (row & _ & Hrow)%get_all_stocks_source.
  by eapply row_entry_filled.
Qed.

Lemma code_key_none (row : record) :
  (∀ k v, (k, v) ∈ row → Py.contains (Py.lit "Code") k = false) →
  code_key row = None.
Proof.
  intros H. unfold code_key.
  destruct (filter _ _) as [|k l] eqn:Hf; [done|]. exfalso.
  assert (Hk : k ∈ filter (fun k => Py.contains (Py.lit "Code") k = true) row.*1)
    by (rewrite Hf; left).
  apply list_elem_of_filter in Hk as [Hc Hk].
  apply list_elem_of_fmap in Hk as ([k' v] & -> & Hkv).
  apply H in Hkv. change (Py.contains (Py.lit "Code") k' = true) in Hc.
  congruence.
Qed.

(** X18.  [get_all_stocks] gives the empty dictionary when reading the
    records failed, and when no header of any row contains "Code". *)
Theorem no_code_column_gives_empty_dictionary (rows : list record) :
  get_all_stocks float_str today None = ∅ ∧
  ((∀ row k v, row ∈ rows → (k, v) ∈ row →
      Py.contains (Py.lit "Code") k = false) →
   get_all_stocks float_str today (Some rows) = ∅).
Proof.
  split; [done|]. intros H. apply map_eq. intros c. rewrite lookup_empty.
  destruct (get_all_stocks float_str today (Some rows) !! c) as [e|] eqn:He; [|done].
  apply get_all_stocks_source in He as (row & Hrow & Hent).
  unfold row_entry in Hent. rewrite code_key_none in Hent; [done|].
  intros k v. by apply H.
Qed.

Lemma find_from_none q r0 (rows : grid) :
  Forall (Forall (fun v => str float_str v ≠ q)) rows →
  find_from float_str q r0 rows = None.
Proof.
  intros H. revert r0. induction H as [|cells rows Hc H IH]; intros r0; [done|].
  cbn. rewrite find_in_row_none by done. apply IH.
Qed.

(** X19.  [clear_all] leaves at most the header row, unchanged; a code
    that the header does not show is then added as a new row, whatever
    the sheet held before. *)
Theorem after_clear_all_codes_are_added_again (sheet : grid)
    (code d q p : pyval) :
  Forall (fun v => str float_str v ≠ str float_str code) (default [] (head sheet)) →
  (length (clear_all sheet) ≤ 1)%nat ∧
  head (clear_all sheet) = head sheet ∧
  add_or_update_stock float_str today (clear_all sheet) code d q p =
    (Py.lit "Added",
     take 1 sheet ++ [[PStr (str float_str code); por d (PStr today);
                       por q (PInt 0); por p (PFloat float_zero)]]).
Proof.
  intros Hh. unfold clear_all. split_and!.
  - rewrite length_take. lia.
  - by destruct sheet.
  - apply add_new. unfold find. apply find_from_none.
    destruct sheet as [|cells sheet]; cbn; [constructor|].
    constructor; [done|constructor].
Qed.

End Records.


(** ** The hypotheses of the theorems above, met on examples *)

Lemma one_holding_key_only (q : pystr) :
  q ≠ Py.lit "BuyDate" → q ≠ Py.lit "Qty" → q ≠ Py.lit "Price" →
  q ≠ Py.lit "2024-01-02" → q ≠ Py.lit "600970" → q ≠ Py.lit "10.5" →
  key_only float_text q one_holding.
Proof.
  intros H1 H2 H3 H4 H5 H6. unfold key_only, one_holding, header.
  repeat constructor; cbn [str]; congruence.
Qed.

Lemma add_or_update_goes_by_key_when_codes_are_keys_only_witness :
  key_only float_text (Py.lit "000001") one_holding ∧
  ∃ cells, one_holding !! 1%nat = Some cells ∧
    add_or_update_stock float_text (Py.lit "2026-11-03") one_holding
      (PStr (Py.lit "000001")) PNone (PInt 200) PNone
    = (Py.lit "Updated",
       <[1%nat := overwritten (PStr (Py.lit "2026-11-03")) (PInt 200)
                    (PFloat float_zero) cells]> one_holding).
Proof.
  assert (Hk : key_only float_text (Py.lit "000001") one_holding)
    by (apply one_holding_key_only; discriminate).
  split; [exact Hk|].
  exact (add_or_update_goes_by_key_when_codes_are_keys_only
           float_text (Py.lit "2026-11-03") one_holding
           (PStr (Py.lit "000001")) PNone (PInt 200) PNone Hk).
Defined.

Lemma remove_goes_by_key_when_codes_are_keys_only_witness :
  key_only float_text (Py.lit "000001") one_holding ∧
  remove_stock float_text one_holding (PStr (Py.lit "000001")) = (true, [header]).
Proof.
  assert (Hk : key_only float_text (Py.lit "000001") one_holding)
    by (apply one_holding_key_only; discriminate).
  split; [exact Hk|].
  exact (remove_goes_by_key_when_codes_are_keys_only
           float_text one_holding (PStr (Py.lit "000001")) Hk).
Defined.

Lemma second_call_updates_the_added_row_witness :
  find float_text [header] (Py.lit "600970") = None ∧
  add_or_update_stock float_text (Py.lit "2026-11-03")
    (add_or_update_stock float_text (Py.lit "2026-11-03") [header]
       (PStr (Py.lit "600970")) PNone (PStr (Py.lit "100")) PNone).2
    (PStr (Py.lit "600970")) PNone (PStr (Py.lit "200")) PNone
  = (Py.lit "Updated",
     [ header;
       [ PStr (Py.lit "600970"); PStr (Py.lit "2026-11-03");
         PStr (Py.lit "200"); PFloat float_zero ] ]).
Proof.
  split; [reflexivity|].
  exact (proj2 (proj2 (second_call_updates_the_added_row
           float_text (Py.lit "2026-11-03") [header]
           (PStr (Py.lit "600970")) PNone (PStr (Py.lit "100")) PNone
           PNone (PStr (Py.lit "200")) PNone eq_refl))).
Defined.

Lemma remove_undoes_add_witness :
  find float_text one_holding (Py.lit "601088") = None ∧
  remove_stock float_text
    (add_or_update_stock float_text (Py.lit "2026-11-03") one_holding
       (PStr (Py.lit "601088")) PNone PNone PNone).2
    (PStr (Py.lit "601088"))
  = (true, one_holding).
Proof.
  split; [reflexivity|].
  exact (remove_undoes_add float_text (Py.lit "2026-11-03") one_holding
           (PStr (Py.lit "601088")) PNone PNone PNone eq_refl).
Defined.

Lemma stock_entries_are_filled_witness :
  get_all_stocks float_text (Py.lit "2026-11-03") (Some two_records)
    !! Py.lit "600970"
  = Some {| date := Py.lit "2026-11-03"; qty := Py.lit "200";
            price := Py.lit "9.5" |} ∧
  qty {| date := Py.lit "2026-11-03"; qty := Py.lit "200";
         price := Py.lit "9.5" |} ≠ [].
Proof.
  assert (Hl : get_all_stocks float_text (Py.lit "2026-11-03") (Some two_records)
                 !! Py.lit "600970"
               = Some {| date := Py.lit "2026-11-03"; qty := Py.lit "200";
                         price := Py.lit "9.5" |})
    by (vm_compute; reflexivity).
  split; [exact Hl|].
  exact (proj1 (proj2 (proj2 (stock_entries_are_filled
           float_text (Py.lit "2026-11-03") two_records _ _ Hl)))).
Defined.

Lemma after_clear_all_codes_are_added_again_witness :
  Forall (fun v => str float_text v ≠ str float_text (PStr (Py.lit "000001")))
         (default [] (head one_holding)) ∧
  add_or_update_stock float_text (Py.lit "2026-11-03") (clear_all one_holding)
    (PStr (Py.lit "000001")) PNone PNone PNone
  = (Py.lit "Added",
     [ header;
       [ PStr (Py.lit "000001"); PStr (Py.lit "2026-11-03");
         PInt 0; PFloat float_zero ] ]).
Proof.
  assert (Hh : Forall (fun v => str float_text v
                                ≠ str float_text (PStr (Py.lit "000001")))
                      (default [] (head one_holding)))
    by (repeat constructor; discriminate).
  split; [exact Hh|].
  exact (proj2 (proj2 (after_clear_all_codes_are_added_again
           float_text (Py.lit "2026-11-03") one_holding
           (PStr (Py.lit "000001")) PNone PNone PNone Hh))).
Defined.
